(** * mlProject: schema validation and utility helpers

    A shallow embedding of

    - [src/mlProject/components/data_validation.py]
      ([DataValidation.validate_all_columns]) and
    - [src/mlProject/utils/common.py] ([read_yaml], [create_directories],
      [save_json], [load_json], [save_bin], [load_bin], [get_size]),

    together with the properties the specification states about them.

    Python values are modelled as follows.  A [str] is a [string] (a byte
    sequence; text is taken to be ASCII or printable UTF-8).  A [dict] whose
    iteration order is observable (the schema) is an association list in
    insertion order.  The file system is a finite map from path to file
    contents, the log is a list of records.  A function that performs I/O or
    can raise is a computation in the monad [M]: it takes the world, returns a
    value or an exception, and the world after it.

    What lies outside the repository is a parameter: the CSV parser of pandas,
    the YAML and JSON codecs, joblib, [os.makedirs], and the verdict of the
    operating system on opening a path for writing.  Paths are compared as strings (one path per file), text mode
    writes a newline as it is (POSIX), and the log is kept apart from the file
    map: the log file is none of the paths the functions are called on.
    Exceptions are instances of [Exception], the ones [except Exception]
    catches. *)

From Stdlib Require Import ZArith String Ascii List DecimalString Lia.
From stdpp Require Import gmap strings list.

Open Scope string_scope.

(** ** Python exceptions *)

(** An exception object: its class, its message and the exception it is
    chained to ([__cause__] or [__context__]), if any. *)
#[warnings="-register-all"]
Inductive PyExc : Type :=
  | Exc (cls : string) (msg : string) (chained : option PyExc).

Definition exc_class (e : PyExc) : string := let 'Exc c _ _ := e in c.
Definition exc_msg (e : PyExc) : string := let 'Exc _ m _ := e in m.
Definition exc_chained (e : PyExc) : option PyExc := let 'Exc _ _ x := e in x.

(** [isinstance(e, cls)] for a class without subclasses. *)
Definition isinstance (e : PyExc) (cls : string) : bool :=
  String.eqb (exc_class e) cls.

Inductive Result (A : Type) : Type :=
  | Ok (a : A)
  | Raise (e : PyExc).
Arguments Ok {A} a.
Arguments Raise {A} e.

(** ** Python string formatting *)

Module Py.

Definition quote1 : ascii := "'"%char.
Definition quote2 : ascii := "034"%char.
Definition backslash : ascii := "\"%char.

(** The newline character, as a string. *)
Definition LF : string := String "010"%char "".

(** [str(b)] for a [bool]. *)
Definition str_bool (b : bool) : string := if b then "True" else "False".

(** [str(n)] for an [int]. *)
Definition str_int (n : Z) : string := NilZero.string_of_int (Z.to_int n).

Fixpoint contains (c : ascii) (s : string) : bool :=
  match s with
  | EmptyString => false
  | String c' s' => Ascii.eqb c c' || contains c s'
  end.

Definition hex_digit (n : N) : ascii :=
  if (n <? 10)%N then ascii_of_N (48 + n) else ascii_of_N (87 + n).

(** One character of [repr(s)] inside the quote [q]. *)
Definition repr_char (q : ascii) (c : ascii) : string :=
  let n := N_of_ascii c in
  if Ascii.eqb c q || Ascii.eqb c backslash then String backslash (String c "")
  else if (n =? 9)%N then String backslash "t"
  else if (n =? 10)%N then String backslash "n"
  else if (n =? 13)%N then String backslash "r"
  else if (n <? 32)%N || (n =? 127)%N then
    String backslash (String "x"%char
      (String (hex_digit (n / 16)) (String (hex_digit (n mod 16)) "")))
  else String c "".

Fixpoint repr_body (q : ascii) (s : string) : string :=
  match s with
  | EmptyString => ""
  | String c s' => repr_char q c +:+ repr_body q s'
  end.

(** [repr(s)] for a [str]: single quotes, unless the text has a single quote
    and no double quote. *)
Definition repr_str (s : string) : string :=
  let q := if contains quote1 s && negb (contains quote2 s) then quote2 else quote1 in
  String q (repr_body q s) +:+ String q "".

(** [sep.join(l)]. *)
Fixpoint join (sep : string) (l : list string) : string :=
  match l with
  | [] => ""
  | [x] => x
  | x :: rest => x +:+ sep +:+ join sep rest
  end.

(** [repr(l)] (also [str(l)] and [f"{l}"]) for a list of [str]. *)
Definition repr_list (l : list string) : string :=
  "[" +:+ join ", " (map repr_str l) +:+ "]".

End Py.

(** ** The world: files and the log *)

Inductive Level : Type := INFO | ERROR.

(** One call of the project logger ([mlProject.logger]); [exc_info] is set by
    [logger.exception], which logs at level ERROR with the exception being
    handled. *)
Record LogRecord : Type := mkLog {
  level : Level;
  message : string;
  exc_info : option PyExc
}.

Record World : Type := mkWorld {
  files : gmap string string;
  log : list LogRecord
}.

Definition M (A : Type) : Type := World → Result A * World.

Global Instance M_ret : MRet M := λ A a w, (Ok a, w).

Global Instance M_bind : MBind M := λ A B f m w,
  match m w with
  | (Ok a, w') => f a w'
  | (Raise e, w') => (Raise e, w')
  end.

Definition raise {A : Type} (e : PyExc) : M A := λ w, (Raise e, w).

(** [try: body except Exception as e: handler(e)]. *)
Definition try_except {A : Type} (body : M A) (handler : PyExc → M A) : M A :=
  λ w, match body w with
       | (Ok a, w') => (Ok a, w')
       | (Raise e, w') => handler e w'
       end.

Definition emit (r : LogRecord) : M unit :=
  λ w, (Ok tt, {| files := files w; log := (log w ++ [r])%list |}).

Definition logger_info (msg : string) : M unit := emit (mkLog INFO msg None).
Definition logger_error (msg : string) : M unit := emit (mkLog ERROR msg None).
Definition logger_exception (msg : string) (e : PyExc) : M unit :=
  emit (mkLog ERROR msg (Some e)).

Definition FileNotFoundError (path : string) : PyExc :=
  Exc "FileNotFoundError"
      ("[Errno 2] No such file or directory: " +:+ Py.repr_str path) None.

(** ** The schema validator ([components/data_validation.py]) *)

(** What the validator observes of a pandas [DataFrame]: its column labels and
    the dtype of each column, as [str(dtype)] prints it.  [pd.read_csv] gives
    every column a distinct label, so the columns are the domain of a map. *)
Record DataFrame : Type := mkDataFrame {
  dtypes : gmap string string
}.

Definition columns (data : DataFrame) : gset string := dom (dtypes data).

(** The configuration record read by the validator ([DataValidationConfig];
    the fields are those the constructor's docstring lists).  [all_schema] is
    the schema dict, column name to expected dtype name, in insertion order. *)
Record DataValidationConfig : Type := mkConfig {
  unzip_data_dir : string;
  all_schema : list (string * string);
  STATUS_FILE : string
}.

(** [[col for col in expected_columns if col not in data.columns]] *)
Definition missing_columns (data : DataFrame) (expected_columns : list string)
  : list string :=
  filter (λ col, col ∉ columns data) expected_columns.

(** The loop that fills [dtype_errors]: one entry for each schema item whose
    column is in the table with a dtype whose name differs from the expected
    one. *)
Fixpoint dtype_errors (data : DataFrame) (items : list (string * string))
  : list string :=
  match items with
  | [] => []
  | (col, expected_type) :: rest =>
      match dtypes data !! col with
      | Some dtype =>
          if negb (String.eqb dtype expected_type)
          then (col +:+ ": expected " +:+ expected_type +:+ ", got " +:+ dtype)
                 :: dtype_errors data rest
          else dtype_errors data rest
      | None => dtype_errors data rest
      end
  end.

(** The text written to the status file. *)
Definition status_text (valid : bool) (messages : list string) : string :=
  ("Validation status: " +:+ Py.str_bool valid +:+ Py.LF)
  +:+ match messages with
      | [] => ""
      | _ :: _ => Py.join Py.LF messages
      end.

Section Validator.

(** The parser behind [pd.read_csv]: the table a file's text parses to, or
    the exception pandas raises on it. *)
Variable parse_csv : string → Result DataFrame.

(** What the operating system answers when a path is opened for writing:
    the exception ([OSError] family) when it refuses, [None] when the file
    is opened.  The validator creates no directory and changes no
    permission, so the answer depends on the path alone. *)
Variable open_w_error : string → option PyExc.

(** [pd.read_csv(path)] *)
Definition read_csv (path : string) : M DataFrame :=
  λ w, match files w !! path with
       | None => (Raise (FileNotFoundError path), w)
       | Some text => (parse_csv text, w)
       end.

(** [with open(path, 'w') as f: f.write(...)]: the file is replaced by the
    text written. *)
Definition write_text (path : string) (text : string) : M unit :=
  λ w, match open_w_error path with
       | Some e => (Raise e, w)
       | None => (Ok tt, {| files := <[path := text]> (files w); log := log w |})
       end.

Definition validate_all_columns (config : DataValidationConfig) : M bool :=
  try_except
    (data ← read_csv (unzip_data_dir config);
     logger_info ("Data loaded from: " +:+ unzip_data_dir config);;
     let valid := true in
     let messages : list string := [] in
     (* 1. all expected columns are present *)
     let expected_columns := (all_schema config).*1 in
     let missing_columns := missing_columns data expected_columns in
     '(valid, messages) ←
       match missing_columns with
       | _ :: _ =>
           let error_msg := "Missing columns: " +:+ Py.repr_list missing_columns in
           logger_error error_msg;;
           mret (false, (messages ++ [error_msg])%list)
       | [] => mret (valid, messages)
       end;
     (* 2. the dtype of each column is the expected one *)
     let dtype_errors := dtype_errors data (all_schema config) in
     '(valid, messages) ←
       match dtype_errors with
       | _ :: _ =>
           let error_msg :=
             "Data type mismatches found: " +:+ Py.repr_list dtype_errors in
           logger_error error_msg;;
           mret (false, (messages ++ [error_msg])%list)
       | [] => mret (valid, messages)
       end;
     write_text (STATUS_FILE config) (status_text valid messages);;
     (if valid : bool
      then logger_info "All validations passed successfully."
      else mret tt);;
     mret valid)
    (λ e,
     logger_exception "Exception occurred during validation" e;;
     raise e).

End Validator.

(** ** The validation report *)

(** The two values the validator accumulates between loading the table and
    writing the status file: the messages and the flag. *)
Definition missing_message (data : DataFrame) (schema : list (string * string))
  : list string :=
  match missing_columns data schema.*1 with
  | [] => []
  | (_ :: _) as l => ["Missing columns: " +:+ Py.repr_list l]
  end.

Definition dtype_message (data : DataFrame) (schema : list (string * string))
  : list string :=
  match dtype_errors data schema with
  | [] => []
  | (_ :: _) as l => ["Data type mismatches found: " +:+ Py.repr_list l]
  end.

Definition report_messages (data : DataFrame) (schema : list (string * string))
  : list string :=
  (missing_message data schema ++ dtype_message data schema)%list.

Definition report_valid (data : DataFrame) (schema : list (string * string))
  : bool :=
  match missing_columns data schema.*1, dtype_errors data schema with
  | [], [] => true
  | _, _ => false
  end.

(** The log lines of a run whose table loaded, up to the write of the status
    file. *)
Definition report_log (config : DataValidationConfig) (data : DataFrame)
  : list LogRecord :=
  (mkLog INFO ("Data loaded from: " +:+ unzip_data_dir config) None
     :: map (λ m, mkLog ERROR m None) (report_messages data (all_schema config)))%list.

Definition success_log (valid : bool) : list LogRecord :=
  if valid then [mkLog INFO "All validations passed successfully." None] else [].

Definition exception_log (e : PyExc) : LogRecord :=
  mkLog ERROR "Exception occurred during validation" (Some e).

(** ** Utilities ([utils/common.py]) *)

(** The values [yaml.safe_load] builds. *)
#[warnings="-register-all"]
Inductive YamlValue : Type :=
  | YNone
  | YBool (b : bool)
  | YInt (n : Z)
  | YFloat (text : string)
  | YStr (s : string)
  | YSeq (l : list YamlValue)
  | YMap (items : list (YamlValue * YamlValue)).

(** A [ConfigBox]: the mapping it wraps. *)
Record ConfigBox : Type := mkConfigBox {
  box_items : list (YamlValue * YamlValue)
}.

Definition BoxValueError (msg : string) : PyExc := Exc "BoxValueError" msg None.

Section ReadYaml.

(** The YAML parser: the value a document's text loads to, or the exception
    ([yaml.YAMLError] family) the parser raises. *)
Variable safe_load : string → Result YamlValue.

(** What the [Box] constructor does with an iterable that is not a mapping
    (it unpacks each element as a key and a value). *)
Variable box_from_iterable : list YamlValue → Result ConfigBox.

(** [ConfigBox(content)]: the constructor of the [box] library on one
    positional argument. *)
Definition ConfigBox_new (content : YamlValue) : Result ConfigBox :=
  match content with
  | YStr _ => Raise (BoxValueError "Cannot extrapolate Box from string")
  | YMap items => Ok (mkConfigBox items)
  | YSeq l => box_from_iterable l
  | YNone | YBool _ | YInt _ | YFloat _ =>
      Raise (BoxValueError "First argument must be mapping or iterable")
  end.

(** [open(path)] followed by reading the text. *)
Definition open_read (path : string) : M string :=
  λ w, match files w !! path with
       | None => (Raise (FileNotFoundError path), w)
       | Some text => (Ok text, w)
       end.

Definition lift {A : Type} (r : Result A) : M A := λ w, (r, w).

Definition read_yaml (path_to_yaml : string) : M ConfigBox :=
  try_except
    (yaml_file ← open_read path_to_yaml;
     content ← lift (safe_load yaml_file);
     logger_info ("yaml file: " +:+ path_to_yaml +:+ " loaded successfully");;
     lift (ConfigBox_new content))
    (λ e,
     if isinstance e "BoxValueError"
     then raise (Exc "ValueError" "yaml file is empty" (Some e))
     else raise e).

End ReadYaml.

(** The arithmetic of [round(size / 1024)] on IEEE doubles, for a size that is
    a non-negative [int]. *)
Module Float.

(** The integer nearest to [a / b] ([b > 0]), ties to the even one. *)
Definition div_half_even (a b : Z) : Z :=
  let q := (a / b)%Z in
  let r := (a mod b)%Z in
  if (2 * r <? b)%Z then q
  else if (b <? 2 * r)%Z then (q + 1)%Z
  else if Z.even q then q else (q + 1)%Z.

(** The double nearest to the integer [n ≥ 0]: [n] rounded to 53
    significant bits, ties to even. *)
Definition of_int (n : Z) : Z :=
  let bits := (Z.log2 n + 1)%Z in
  if (bits <=? 53)%Z then n
  else let k := (bits - 53)%Z in (div_half_even n (2 ^ k) * 2 ^ k)%Z.

(** [round(n / 1024)]: dividing by [2 ^ 10] only lowers the exponent, so the
    quotient is the double nearest to [n] scaled by [2 ^ -10]; [round] then
    takes the nearest integer, ties to even. *)
Definition round_div_1024 (n : Z) : Z := div_half_even (of_int n) 1024.

End Float.

(** [os.path.getsize(path)] *)
Definition getsize (path : string) : M Z :=
  λ w, match files w !! path with
       | None => (Raise (FileNotFoundError path), w)
       | Some text => (Ok (Z.of_nat (String.length text)), w)
       end.

Definition get_size (path : string) : M string :=
  size ← getsize path;
  let size_in_kb := Float.round_div_1024 size in
  mret ("~ " +:+ Py.str_int size_in_kb +:+ " KB").

(** ** Saving and loading artifacts ([utils/common.py]) *)

(** [@ensure_annotations] tests an annotated argument, and the returned
    value when the return is annotated, with [isinstance(value, annotation)].
    For the annotation [Any] the test itself raises: [typing.Any] cannot be
    used with [isinstance]. *)
Definition isinstance_Any_error : PyExc :=
  Exc "TypeError" "typing.Any cannot be used with isinstance()" None.

Definition ensure_Any : M unit := raise isinstance_Any_error.

Section Persistence.

Variable open_w_error : string → option PyExc.
Variable box_from_iterable : list YamlValue → Result ConfigBox.

(** [json.dump(data, f, indent=4)] on a [dict], given by its items: the text
    written to [f], and the exception that ends the call when [data] cannot
    be serialised.  With an indent the encoder writes chunk by chunk, so text
    may be written before it raises. *)
Variable json_dump : list (YamlValue * YamlValue) → string * option PyExc.

(** [json.load(f)]: JSON documents load to the same Python values as YAML
    ones. *)
Variable json_load : string → Result YamlValue.

(** The objects [joblib] stores, what [joblib.dump] writes for one (and the
    exception when it cannot be pickled), and [joblib.load] on the bytes of a
    file. *)
Variable Obj : Type.
Variable joblib_dump : Obj → string * option PyExc.
Variable joblib_load : string → Result Obj.

(** [with open(path, "w") as f: writer(f)], for a writer that is given by
    the text it writes and the exception it ends with: the file is opened,
    which empties it, the text is written, and the exception, if any, leaves
    the block. *)
Definition write_with (path : string) (out : string * option PyExc) : M unit :=
  write_text open_w_error path out.1;;
  match out.2 with
  | Some e => raise e
  | None => mret tt
  end.

Definition save_json (path : string) (data : list (YamlValue * YamlValue))
  : M unit :=
  write_with path (json_dump data);;
  logger_info ("json file saved at: " +:+ path).

Definition load_json (path : string) : M ConfigBox :=
  f ← open_read path;
  content ← lift (json_load f);
  logger_info ("json file loaded successfully from: " +:+ path);;
  lift (ConfigBox_new box_from_iterable content).

(** [save_bin] is decorated with [@ensure_annotations] and its first
    argument is annotated [Any]: the decorator's check of [data] comes before
    the body. *)
Definition save_bin (data : Obj) (path : string) : M unit :=
  ensure_Any;;
  write_with path (joblib_dump data);;
  logger_info ("binary file saved at: " +:+ path).

(** [load_bin] is decorated with [@ensure_annotations] and returns [Any]:
    the decorator's check of the returned value comes after the body. *)
Definition load_bin (path : string) : M Obj :=
  data ← (f ← open_read path;
          data ← lift (joblib_load f);
          logger_info ("binary file loaded from: " +:+ path);;
          mret data);
  ensure_Any;;
  mret data.

End Persistence.

Section Directories.

(** The directories of the file system, and [os.makedirs(path,
    exist_ok=True)] on them: whether it raises, and the directories after the
    call (parents may have been created before it raises).  It reads the
    files, since a path that is a file cannot be made a directory. *)
Variable Dirs : Type.
Variable makedirs : string → gmap string string → Dirs → Result unit * Dirs.

Fixpoint create_directories (path_to_directories : list string) (verbose : bool)
    (d : Dirs) (w : World) : Result unit * Dirs * World :=
  match path_to_directories with
  | [] => (Ok tt, d, w)
  | path :: rest =>
      match makedirs path (files w) d with
      | (Raise e, d') => (Raise e, d', w)
      | (Ok _, d') =>
          let w' :=
            if verbose
            then (logger_info ("created directory at: " +:+ path) w).2
            else w in
          create_directories rest verbose d' w'
      end
  end.

(** Making the directories of a list one after the other: the directories
    after the last call, or [None] when one of the calls raises. *)
Fixpoint makedirs_each (paths : list string) (fs : gmap string string)
    (d : Dirs) : option Dirs :=
  match paths with
  | [] => Some d
  | path :: rest =>
      match makedirs path fs d with
      | (Ok _, d') => makedirs_each rest fs d'
      | (Raise _, _) => None
      end
  end.

End Directories.

(** ** The log file ([mlProject/__init__.py]) *)

Definition log_dir : string := "logs".

(** [os.path.join(log_dir, "running_logs.log")]: the file the logger's
    [FileHandler] appends every record to. *)
Definition log_filepath : string := log_dir +:+ "/" +:+ "running_logs.log".

(** The log lines of the utilities. *)
Definition yaml_loaded_log (path : string) : LogRecord :=
  mkLog INFO ("yaml file: " +:+ path +:+ " loaded successfully") None.
Definition json_saved_log (path : string) : LogRecord :=
  mkLog INFO ("json file saved at: " +:+ path) None.
Definition json_loaded_log (path : string) : LogRecord :=
  mkLog INFO ("json file loaded successfully from: " +:+ path) None.
Definition bin_saved_log (path : string) : LogRecord :=
  mkLog INFO ("binary file saved at: " +:+ path) None.
Definition bin_loaded_log (path : string) : LogRecord :=
  mkLog INFO ("binary file loaded from: " +:+ path) None.
Definition created_log (path : string) : LogRecord :=
  mkLog INFO ("created directory at: " +:+ path) None.

(** ** What the specification names *)

(** Modelled from the spec: [DataLoadError], the error the specification says
    a failed load is wrapped in.  No source file defines or raises a class of
    that name; [wraps x cause] reads the specification's words: [x] is of
    that class and carries [cause]. *)
Definition DataLoadError_wraps (x cause : PyExc) : Prop :=
  exc_class x = "DataLoadError" ∧ exc_chained x = Some cause.

(** The specification's [EmptyConfigError] is the error [read_yaml] raises
    for an empty file: a [ValueError] with the message below (the docstring
    of [read_yaml] names it). *)
Definition EmptyConfigError (x : PyExc) : Prop :=
  exc_class x = "ValueError" ∧ exc_msg x = "yaml file is empty".

(** ** Concrete inputs *)

Module Examples.

Definition LF : string := Py.LF.

(** A schema of three columns and a data file that has only the third,
    with another dtype (the specification's third testable property). *)
Definition schema : list (string * string) :=
  [("a", "int64"); ("b", "float64"); ("c", "object")].

Definition config : DataValidationConfig :=
  {| unzip_data_dir := "artifacts/data.csv";
     all_schema := schema;
     STATUS_FILE := "artifacts/status.txt" |}.

(** The status file is the data file itself. *)
Definition config_aliased : DataValidationConfig :=
  {| unzip_data_dir := "artifacts/data.csv";
     all_schema := schema;
     STATUS_FILE := "artifacts/data.csv" |}.

Definition config_empty_schema : DataValidationConfig :=
  {| unzip_data_dir := "artifacts/data.csv";
     all_schema := [];
     STATUS_FILE := "artifacts/status.txt" |}.

Definition csv_only_c : string := "c" +:+ LF +:+ "1" +:+ LF +:+ "2" +:+ LF.
Definition csv_full : string :=
  "a,b,c" +:+ LF +:+ "1,0.5,x" +:+ LF +:+ "2,1.5,y" +:+ LF.

Definition table_only_c : DataFrame := {| dtypes := {[ "c" := "int64" ]} |}.
Definition table_full : DataFrame :=
  {| dtypes := <["a" := "int64"]> (<["b" := "float64"]> {[ "c" := "object" ]}) |}.

Definition EmptyDataError : PyExc :=
  Exc "EmptyDataError" "No columns to parse from file" None.
Definition ParserError : PyExc :=
  Exc "ParserError" "Error tokenizing data" None.

(** A parser that knows the two files above; pandas raises [EmptyDataError]
    on an empty file. *)
Definition parse_csv (text : string) : Result DataFrame :=
  if String.eqb text csv_only_c then Ok table_only_c
  else if String.eqb text csv_full then Ok table_full
  else if String.eqb text "" then Raise EmptyDataError
  else Raise ParserError.

(** Every path can be opened for writing. *)
Definition open_w_error (path : string) : option PyExc := None.

Definition world_only_c : World :=
  {| files := {[ "artifacts/data.csv" := csv_only_c ]}; log := [] |}.

Definition world_full : World :=
  {| files := <["artifacts/status.txt" := "stale"]>
                {[ "artifacts/data.csv" := csv_full ]};
     log := [] |}.

(** No data file; a status file is left from an earlier run. *)
Definition world_no_data : World :=
  {| files := {[ "artifacts/status.txt" := "Validation status: True" +:+ LF ]};
     log := [] |}.

(** An empty data file: pandas raises [EmptyDataError]. *)
Definition world_empty_data : World :=
  {| files := {[ "artifacts/data.csv" := "" ]}; log := [] |}.

Definition ScannerError : PyExc :=
  Exc "ScannerError" "mapping values are not allowed here" None.

(** A YAML loader that knows an empty document and a one-key mapping. *)
Definition safe_load (text : string) : Result YamlValue :=
  if String.eqb text "" then Ok YNone
  else if String.eqb text "key: value" then Ok (YMap [(YStr "key", YStr "value")])
  else Raise ScannerError.

Definition box_from_iterable (l : list YamlValue) : Result ConfigBox :=
  Raise (Exc "TypeError" "cannot unpack non-iterable object" None).

Definition world_yaml : World :=
  {| files := <["empty.yaml" := ""]> {[ "bad.yaml" := "a: b: c" ]}; log := [] |}.

(** A file of [n] bytes. *)
Fixpoint blob (n : nat) : string :=
  match n with
  | O => ""
  | S n' => String "x"%char (blob n')
  end.

Definition world_blob (n : nat) : World :=
  {| files := {[ "model.bin" := blob n ]}; log := [] |}.

End Examples.

(** More concrete inputs, for the utilities and for a status file that
    cannot be written. *)
Module Inputs.

Definition PermissionError (path : string) : PyExc :=
  Exc "PermissionError" ("[Errno 13] Permission denied: " +:+ Py.repr_str path) None.

(** The status file of [Examples.config] is read-only. *)
Definition open_w_denied (path : string) : option PyExc :=
  if String.eqb path "artifacts/status.txt" then Some (PermissionError path)
  else None.

Definition table_c_and_extra : DataFrame :=
  {| dtypes := <["extra" := "float64"]> {[ "c" := "int64" ]} |}.

Definition csv_c_and_extra : string :=
  "c,extra" +:+ Py.LF +:+ "1,0.5" +:+ Py.LF.

Definition parse_csv (text : string) : Result DataFrame :=
  if String.eqb text csv_c_and_extra then Ok table_c_and_extra
  else Examples.parse_csv text.

Definition world_c_and_extra : World :=
  {| files := {[ "artifacts/data.csv" := csv_c_and_extra ]}; log := [] |}.

(** A toy JSON codec that knows one document. *)
Definition metrics : list (YamlValue * YamlValue) :=
  [(YStr "rmse", YFloat "0.75"); (YStr "epochs", YInt 3)].

Definition metrics_text : string :=
  "{" +:+ Py.LF +:+ "    " +:+ String Py.quote2 "rmse" +:+ String Py.quote2 ": 0.75,"
  +:+ Py.LF +:+ "    " +:+ String Py.quote2 "epochs" +:+ String Py.quote2 ": 3"
  +:+ Py.LF +:+ "}".

Definition NotSerializable : PyExc :=
  Exc "TypeError" "Object of type set is not JSON serializable" None.

Definition JSONDecodeError : PyExc :=
  Exc "JSONDecodeError" "Expecting value: line 1 column 1 (char 0)" None.

(** Anything but [metrics] fails after the opening brace has been written. *)
Definition json_dump (data : list (YamlValue * YamlValue))
  : string * option PyExc :=
  match data with
  | [(YStr "rmse", YFloat "0.75"); (YStr "epochs", YInt 3)] => (metrics_text, None)
  | _ => ("{", Some NotSerializable)
  end.

Definition json_load (text : string) : Result YamlValue :=
  if String.eqb text metrics_text then Ok (YMap metrics)
  else if String.eqb text "null" then Ok YNone
  else Raise JSONDecodeError.

(** A toy pickle: an object is a number, stored in decimal. *)
Definition joblib_dump (n : nat) : string * option PyExc :=
  (Py.str_int (Z.of_nat n), None).

Definition joblib_load (text : string) : Result nat :=
  if String.eqb text "7" then Ok 7 else Raise (Exc "UnpicklingError" "invalid load key" None).

Definition world_json : World :=
  {| files := <["metrics.json" := "old"]> {[ "null.json" := "null" ]}; log := [] |}.

(** Directories as a set of paths; [makedirs] refuses a path that is a
    file. *)
Definition makedirs (path : string) (fs : gmap string string) (d : gset string)
  : Result unit * gset string :=
  match fs !! path with
  | Some _ => (Raise (Exc "FileExistsError" "[Errno 17] File exists" None), d)
  | None => (Ok tt, {[ path ]} ∪ d)
  end.

End Inputs.

(** * Properties *)

Section ValidatorFacts.

Variable parse_csv : string → Result DataFrame.
Variable open_w_error : string → option PyExc.

Local Abbreviation load := (read_csv parse_csv).
Local Abbreviation validate := (validate_all_columns parse_csv open_w_error).

Lemma read_csv_world path w : (load path w).2 = w.
Proof. unfold read_csv. by destruct (files w !! path). Qed.

(** A run whose load raises: the handler logs and raises the exception
    again; no file is touched. *)
Lemma validate_load_raises config w e :
  (load (unzip_data_dir config) w).1 = Raise e →
  validate config w =
    (Raise e, {| files := files w; log := (log w ++ [exception_log e])%list |}).
Proof.
  intros Hload.
  pose proof (read_csv_world (unzip_data_dir config) w) as Hw.
  unfold validate_all_columns, try_except, mbind, M_bind.
  destruct (load (unzip_data_dir config) w) as [r w1].
  simpl in Hload, Hw. subst r w1. reflexivity.
Qed.

(** A run whose table loads and whose status file cannot be opened. *)
Lemma validate_write_raises config w data e :
  (load (unzip_data_dir config) w).1 = Ok data →
  open_w_error (STATUS_FILE config) = Some e →
  validate config w =
    (Raise e, {| files := files w;
                 log := (log w ++ report_log config data ++ [exception_log e])%list |}).
Proof.
  intros Hload Hopen.
  pose proof (read_csv_world (unzip_data_dir config) w) as Hw.
  unfold validate_all_columns, try_except, mbind, M_bind.
  destruct (load (unzip_data_dir config) w) as [r w1].
  simpl in Hload, Hw. subst r w1.
  unfold report_log, report_messages, missing_message, dtype_message, write_text.
  destruct (missing_columns data (all_schema config).*1);
    destruct (dtype_errors data (all_schema config));
    simpl; rewrite Hopen; simpl; rewrite <- ?app_assoc; reflexivity.
Qed.

(** A run whose table loads and whose status file can be opened. *)
Lemma validate_reports config w data :
  (load (unzip_data_dir config) w).1 = Ok data →
  open_w_error (STATUS_FILE config) = None →
  let valid := report_valid data (all_schema config) in
  let messages := report_messages data (all_schema config) in
  validate config w =
    (Ok valid,
     {| files := <[STATUS_FILE config := status_text valid messages]> (files w);
        log := (log w ++ report_log config data ++ success_log valid)%list |}).
Proof.
  intros Hload Hopen.
  pose proof (read_csv_world (unzip_data_dir config) w) as Hw.
  unfold validate_all_columns, try_except, mbind, M_bind.
  destruct (load (unzip_data_dir config) w) as [r w1].
  simpl in Hload, Hw. subst r w1.
  unfold report_log, report_valid, report_messages, missing_message,
    dtype_message, write_text.
  destruct (missing_columns data (all_schema config).*1);
    destruct (dtype_errors data (all_schema config));
    simpl; rewrite Hopen; simpl; rewrite <- ?app_assoc; reflexivity.
Qed.

(** The load reads the data file only. *)
Lemma read_csv_same_file path w w' :
  files w' !! path = files w !! path → (load path w').1 = (load path w).1.
Proof. unfold read_csv. intros ->. by destruct (files w !! path). Qed.

(** A run changes no file but the status file; when the status file is not
    the data file, the data file is as it was, which is what idempotence
    asks of the first call. *)
Lemma validate_other_files config w path :
  path ≠ STATUS_FILE config →
  files (validate config w).2 !! path = files w !! path.
Proof.
  intros Hne.
  destruct (load (unzip_data_dir config) w).1 as [data|e] eqn:Hload.
  - destruct (open_w_error (STATUS_FILE config)) as [e|] eqn:Hopen.
    + by rewrite (validate_write_raises _ _ _ _ Hload Hopen).
    + rewrite (validate_reports _ _ _ Hload Hopen). simpl.
      by rewrite lookup_insert_ne.
  - by rewrite (validate_load_raises _ _ _ Hload).
Qed.

End ValidatorFacts.

(** ** When the two checks find nothing *)

Lemma missing_columns_nil (data : DataFrame) (cols : list string) :
  missing_columns data cols = [] ↔ ∀ col, col ∈ cols → col ∈ columns data.
Proof.
  unfold missing_columns. split.
  - intros Hnil col Hin.
    destruct (decide (col ∈ columns data)) as [|Hout]; [done|].
    by destruct (filter_nil_not_elem_of _ _ col Hnil Hout).
  - intros Hall. induction cols as [|c cols IH]; [done|].
    rewrite filter_cons_False.
    + apply IH. intros col Hin. apply Hall. by right.
    + intros Hout. apply Hout, Hall. by left.
Qed.

Lemma dtype_errors_nil (data : DataFrame) (items : list (string * string)) :
  dtype_errors data items = [] ↔
  ∀ col expected_type dtype,
    (col, expected_type) ∈ items → dtypes data !! col = Some dtype →
    dtype = expected_type.
Proof.
  induction items as [|[c t] items IH]; simpl.
  - split; [|done]. intros _ col ty dt Hin. by apply elem_of_nil in Hin.
  - destruct (dtypes data !! c) as [d|] eqn:Hc.
    + destruct (String.eqb d t) eqn:Hdt; simpl.
      * apply String.eqb_eq in Hdt. subst d. rewrite IH. split.
        -- intros Hrest col ty dt Hin Hcol.
           apply elem_of_cons in Hin as [Heq|Hin]; [|by eapply Hrest].
           injection Heq as -> ->. congruence.
        -- intros Hall col ty dt Hin. apply Hall. by right.
      * apply String.eqb_neq in Hdt. split; [done|].
        intros Hall. destruct Hdt. apply (Hall c t d); [by left|done].
    + rewrite IH. split.
      * intros Hrest col ty dt Hin Hcol.
        apply elem_of_cons in Hin as [Heq|Hin]; [|by eapply Hrest].
        injection Heq as -> ->. congruence.
      * intros Hall col ty dt Hin. apply Hall. by right.
Qed.

Lemma report_valid_true (data : DataFrame) (schema : list (string * string)) :
  report_valid data schema = true ↔
  missing_columns data schema.*1 = [] ∧ dtype_errors data schema = [].
Proof.
  unfold report_valid.
  destruct (missing_columns data schema.*1), (dtype_errors data schema);
    (split; [done || discriminate | by intros [? ?]]).
Qed.

Lemma report_valid_messages (data : DataFrame) (schema : list (string * string)) :
  report_valid data schema = false ↔ report_messages data schema ≠ [].
Proof.
  unfold report_valid, report_messages, missing_message, dtype_message.
  destruct (missing_columns data schema.*1), (dtype_errors data schema);
    naive_solver.
Qed.

Lemma status_text_join (valid : bool) (messages : list string) :
  status_text valid messages =
  ("Validation status: " +:+ Py.str_bool valid +:+ Py.LF)
    +:+ Py.join Py.LF messages.
Proof. unfold status_text. by destruct messages. Qed.

(** What the two lists hold, read off the table and the schema. *)
Lemma elem_of_missing_columns (data : DataFrame) (cols : list string) (col : string) :
  col ∈ missing_columns data cols ↔ col ∈ cols ∧ col ∉ columns data.
Proof. unfold missing_columns. rewrite list_elem_of_filter. tauto. Qed.

Lemma elem_of_dtype_errors (data : DataFrame) (items : list (string * string))
    (entry : string) :
  entry ∈ dtype_errors data items ↔
  ∃ col expected_type dtype,
    (col, expected_type) ∈ items ∧ dtypes data !! col = Some dtype ∧
    dtype ≠ expected_type ∧
    entry = col +:+ ": expected " +:+ expected_type +:+ ", got " +:+ dtype.
Proof.
  induction items as [|[c t] items IH]; simpl.
  - split; [intros Hin; by apply elem_of_nil in Hin|].
    intros (col & ty & dt & Hin & _). by apply elem_of_nil in Hin.
  - assert (entry ∈ dtype_errors data items →
            ∃ col ty dt, (col, ty) ∈ (c, t) :: items ∧
              dtypes data !! col = Some dt ∧ dt ≠ ty ∧
              entry = col +:+ ": expected " +:+ ty +:+ ", got " +:+ dt) as Hrest.
    { intros Hin. apply IH in Hin as (col & ty & dt & Hin & Hrest).
      exists col, ty, dt. split; [by right|done]. }
    destruct (dtypes data !! c) as [d|] eqn:Hc.
    + destruct (String.eqb d t) eqn:Hdt; simpl.
      * apply String.eqb_eq in Hdt. subst d. split; [done|].
        intros (col & ty & dt & Hin & Hcol & Hne & ->).
        apply elem_of_cons in Hin as [Heq|Hin].
        -- injection Heq as -> ->. congruence.
        -- apply IH. by exists col, ty, dt.
      * apply String.eqb_neq in Hdt. split.
        -- intros Hin. apply elem_of_cons in Hin as [->|Hin]; [|by apply Hrest].
           exists c, t, d. split; [by left|done].
        -- intros (col & ty & dt & Hin & Hcol & Hne & ->).
           apply elem_of_cons in Hin as [Heq|Hin].
           ++ injection Heq as -> ->. assert (dt = d) as -> by congruence. by left.
           ++ right. apply IH. by exists col, ty, dt.
    + split; [done|].
      intros (col & ty & dt & Hin & Hcol & Hne & ->).
      apply elem_of_cons in Hin as [Heq|Hin].
      * injection Heq as -> ->. congruence.
      * apply IH. by exists col, ty, dt.
Qed.

Section ValidatorClaims.

Variable parse_csv : string → Result DataFrame.
Variable open_w_error : string → option PyExc.

Local Abbreviation load := (read_csv parse_csv).
Local Abbreviation validate := (validate_all_columns parse_csv open_w_error).

(** C1. For every schema and every table that loads, [validate_all_columns]
    returns, and it returns [True] exactly when every key of the schema is a
    column of the table and every schema item whose column is in the table
    has, as expected type, the very name of the column's dtype. *)
Theorem validate_true_iff_conforms config w data :
  (load (unzip_data_dir config) w).1 = Ok data →
  open_w_error (STATUS_FILE config) = None →
  ∃ valid : bool,
    (validate config w).1 = Ok valid ∧
    (valid = true ↔
       (∀ col, col ∈ (all_schema config).*1 → col ∈ columns data) ∧
       (∀ col expected_type dtype,
          (col, expected_type) ∈ all_schema config →
          dtypes data !! col = Some dtype → dtype = expected_type)).
Proof.
  intros Hload Hopen.
  exists (report_valid data (all_schema config)). split.
  - by rewrite (validate_reports _ _ _ _ _ Hload Hopen).
  - by rewrite report_valid_true, missing_columns_nil, dtype_errors_nil.
Qed.

(** C2. In a run that completes, the flag returned is [False] exactly when
    the list of messages is not empty; the messages are what the status file
    holds after the status line.  When the table lacks a column of the schema
    and has another column of the schema under another dtype, the report holds
    both messages, in that order: the first lists exactly the schema's keys
    that are not columns of the table, the second exactly the mismatches, each
    as "col: expected t, got d". *)
Theorem validate_false_iff_messages config w data :
  (load (unzip_data_dir config) w).1 = Ok data →
  open_w_error (STATUS_FILE config) = None →
  let schema := all_schema config in
  let valid := report_valid data schema in
  let messages := report_messages data schema in
  (validate config w).1 = Ok valid ∧
  files (validate config w).2 !! STATUS_FILE config
    = Some (status_text valid messages) ∧
  (valid = false ↔ messages ≠ []) ∧
  (∀ absent col expected_type dtype,
     absent ∈ schema.*1 → absent ∉ columns data →
     (col, expected_type) ∈ schema → dtypes data !! col = Some dtype →
     dtype ≠ expected_type →
     ∃ missing errors : list string,
       (∀ c, c ∈ missing ↔ c ∈ schema.*1 ∧ c ∉ columns data) ∧
       (∀ entry, entry ∈ errors ↔
          ∃ c t d, (c, t) ∈ schema ∧ dtypes data !! c = Some d ∧ d ≠ t ∧
                   entry = c +:+ ": expected " +:+ t +:+ ", got " +:+ d) ∧
       absent ∈ missing ∧
       (col +:+ ": expected " +:+ expected_type +:+ ", got " +:+ dtype) ∈ errors ∧
       (validate config w).1 = Ok false ∧
       messages =
         ["Missing columns: " +:+ Py.repr_list missing;
          "Data type mismatches found: " +:+ Py.repr_list errors] ∧
       files (validate config w).2 !! STATUS_FILE config =
         Some ("Validation status: False" +:+ Py.LF
               +:+ "Missing columns: " +:+ Py.repr_list missing +:+ Py.LF
               +:+ "Data type mismatches found: " +:+ Py.repr_list errors)).
Proof.
  intros Hload Hopen schema valid messages.
  rewrite (validate_reports _ _ _ _ _ Hload Hopen). simpl.
  split_and!.
  - done.
  - apply lookup_insert_eq.
  - apply report_valid_messages.
  - subst valid messages schema.
    intros absent col ty dt Hkey Habsent Hitem Hcol Hne.
    set (schema := all_schema config) in *.
    exists (missing_columns data schema.*1), (dtype_errors data schema).
    assert (absent ∈ missing_columns data schema.*1) as Hmiss
      by by apply elem_of_missing_columns.
    assert ((col +:+ ": expected " +:+ ty +:+ ", got " +:+ dt)
              ∈ dtype_errors data schema) as Herr
      by (apply elem_of_dtype_errors; by exists col, ty, dt).
    unfold report_valid, report_messages, missing_message, dtype_message.
    rewrite lookup_insert_eq.
    destruct (missing_columns data schema.*1) as [|m ms] eqn:Hm;
      [by apply elem_of_nil in Hmiss|].
    destruct (dtype_errors data schema) as [|e es] eqn:He;
      [by apply elem_of_nil in Herr|].
    split_and!; try done.
    + intros c. rewrite <- Hm. apply elem_of_missing_columns.
    + intros entry. rewrite <- He. apply elem_of_dtype_errors.
Qed.

(** C3. Whenever the table loads, the status file is written, replacing
    what it held: the text is the line "Validation status: " followed by the
    flag, then the messages joined by newlines; no other file changes.  When
    the flag is [True] the text is that one line alone. *)
Theorem validate_writes_status config w data :
  (load (unzip_data_dir config) w).1 = Ok data →
  open_w_error (STATUS_FILE config) = None →
  ∃ (valid : bool) (messages : list string),
    (validate config w).1 = Ok valid ∧
    messages = report_messages data (all_schema config) ∧
    files (validate config w).2 =
      <[STATUS_FILE config :=
          ("Validation status: " +:+ Py.str_bool valid +:+ Py.LF)
            +:+ Py.join Py.LF messages]> (files w) ∧
    (valid = true →
     files (validate config w).2 !! STATUS_FILE config
       = Some ("Validation status: True" +:+ Py.LF)).
Proof.
  intros Hload Hopen.
  exists (report_valid data (all_schema config)),
         (report_messages data (all_schema config)).
  rewrite (validate_reports _ _ _ _ _ Hload Hopen). simpl.
  rewrite status_text_join. split_and!; try done.
  intros Hvalid. rewrite lookup_insert_eq.
  destruct (report_messages data (all_schema config)) eqn:Hm.
  - by rewrite Hvalid.
  - assert (report_valid data (all_schema config) = false); [|congruence].
    apply report_valid_messages. by rewrite Hm.
Qed.

(** C4. When loading the table raises, [validate_all_columns] raises the
    same exception and writes nothing: every file, the status file of an
    earlier run included, is as it was. *)
Theorem validate_aborts_on_load_error config w e :
  (load (unzip_data_dir config) w).1 = Raise e →
  (validate config w).1 = Raise e ∧
  files (validate config w).2 = files w ∧
  files (validate config w).2 !! STATUS_FILE config
    = files w !! STATUS_FILE config.
Proof.
  intros Hload. by rewrite (validate_load_raises _ _ _ _ _ Hload).
Qed.

(** C9. With the empty schema, every table that loads is valid: the call
    returns [True] and the status file holds the status line alone. *)
Theorem validate_empty_schema config w data :
  all_schema config = [] →
  (load (unzip_data_dir config) w).1 = Ok data →
  open_w_error (STATUS_FILE config) = None →
  (validate config w).1 = Ok true ∧
  files (validate config w).2 !! STATUS_FILE config
    = Some ("Validation status: True" +:+ Py.LF).
Proof.
  intros Hschema Hload Hopen.
  rewrite (validate_reports _ _ _ _ _ Hload Hopen), Hschema. simpl.
  by rewrite lookup_insert_eq.
Qed.

(** C5, as the code has it. When loading the table raises, the handler logs
    the exception once and raises that very exception again: the caller gets
    the loader's exception, same class, message and chain, with no wrapper
    around it. *)
Theorem validate_reraises_load_error config w e :
  (load (unzip_data_dir config) w).1 = Raise e →
  (validate config w).1 = Raise e ∧
  log (validate config w).2 = (log w ++ [exception_log e])%list ∧
  (∀ x, (validate config w).1 = Raise x →
        exc_class x = exc_class e ∧ exc_msg x = exc_msg e ∧
        exc_chained x = exc_chained e).
Proof.
  intros Hload. rewrite (validate_load_raises _ _ _ _ _ Hload). simpl.
  split_and!; try done. by intros x [= <-].
Qed.

(** C8. A second call on unchanged inputs (the first call left the data
    file as it was) gives the result of the first call, be it a flag or an
    exception, and leaves every file, the status file included, byte for
    byte as the first call left it. *)
Theorem validate_idempotent config w :
  let first := validate config w in
  let second := validate config first.2 in
  files first.2 !! unzip_data_dir config = files w !! unzip_data_dir config →
  second.1 = first.1 ∧
  files second.2 !! STATUS_FILE config = files first.2 !! STATUS_FILE config ∧
  files second.2 = files first.2.
Proof.
  intros first second Hsame. subst first second.
  pose proof (read_csv_same_file parse_csv _ _ _ Hsame) as Hload2.
  destruct (load (unzip_data_dir config) w).1 as [data|e] eqn:Hload.
  - destruct (open_w_error (STATUS_FILE config)) as [e|] eqn:Hopen.
    + rewrite (validate_write_raises _ _ _ _ _ _ Hload2 Hopen).
      by rewrite (validate_write_raises _ _ _ _ _ _ Hload Hopen).
    + rewrite (validate_reports _ _ _ _ _ Hload2 Hopen).
      rewrite (validate_reports _ _ _ _ _ Hload Hopen). simpl.
      by rewrite insert_insert_eq.
  - rewrite (validate_load_raises _ _ _ _ _ Hload2).
    by rewrite (validate_load_raises _ _ _ _ _ Hload).
Qed.

End ValidatorClaims.

(** ** The validator on concrete files *)

Module ValidatorRuns.
Import Examples.

Local Abbreviation load := (read_csv parse_csv).
Local Abbreviation validate := (validate_all_columns parse_csv open_w_error).

(** The specification's third testable property, evaluated. *)
Example report_of_only_c :
  (validate config world_only_c).1 = Ok false ∧
  files (validate config world_only_c).2 !! "artifacts/status.txt" =
    Some ("Validation status: False" +:+ LF
          +:+ "Missing columns: ['a', 'b']" +:+ LF
          +:+ "Data type mismatches found: ['c: expected object, got int64']").
Proof. split; vm_compute; reflexivity. Qed.

(** Why idempotence asks for unchanged inputs: when the status file is the
    data file, the first call replaces the table by its own report, which the
    second call then fails to parse. *)
Example status_file_is_data_file :
  let first := validate config_aliased world_full in
  first.1 = Ok true ∧
  files first.2 !! "artifacts/data.csv" = Some ("Validation status: True" +:+ LF) ∧
  (validate config_aliased first.2).1 = Raise ParserError.
Proof. repeat split; vm_compute; reflexivity. Qed.

Lemma validate_true_iff_conforms_full :
  (load (unzip_data_dir config) world_full).1 = Ok table_full ∧
  open_w_error (STATUS_FILE config) = None ∧
  ∃ valid : bool,
    (validate config world_full).1 = Ok valid ∧
    (valid = true ↔
       (∀ col, col ∈ (all_schema config).*1 → col ∈ columns table_full) ∧
       (∀ col expected_type dtype,
          (col, expected_type) ∈ all_schema config →
          dtypes table_full !! col = Some dtype → dtype = expected_type)).
Proof.
  split; [vm_compute; reflexivity|]. split; [reflexivity|].
  apply (validate_true_iff_conforms parse_csv open_w_error config world_full
           table_full); vm_compute; reflexivity.
Defined.

Lemma validate_false_iff_messages_only_c :
  (load (unzip_data_dir config) world_only_c).1 = Ok table_only_c ∧
  open_w_error (STATUS_FILE config) = None ∧
  ("a" ∈ (all_schema config).*1) ∧ ("a" ∉ columns table_only_c) ∧
  (("c", "object") ∈ all_schema config) ∧
  dtypes table_only_c !! "c" = Some "int64" ∧
  "int64" ≠ "object" ∧
  ∃ missing errors : list string,
    "a" ∈ missing ∧
    "c: expected object, got int64" ∈ errors ∧
    (validate config world_only_c).1 = Ok false ∧
    files (validate config world_only_c).2 !! STATUS_FILE config =
      Some ("Validation status: False" +:+ Py.LF
            +:+ "Missing columns: " +:+ Py.repr_list missing +:+ Py.LF
            +:+ "Data type mismatches found: " +:+ Py.repr_list errors).
Proof.
  assert ("a" ∈ (all_schema config).*1) as Hkey
    by (apply (bool_decide_unpack _); vm_compute; exact I).
  assert ("a" ∉ columns table_only_c) as Habsent
    by (apply (bool_decide_unpack _); vm_compute; exact I).
  assert (("c", "object") ∈ all_schema config) as Hitem
    by (apply (bool_decide_unpack _); vm_compute; exact I).
  assert (dtypes table_only_c !! "c" = Some "int64") as Hcol
    by (vm_compute; reflexivity).
  assert ("int64" ≠ "object") as Hne by discriminate.
  split; [vm_compute; reflexivity|]. split; [reflexivity|].
  split; [exact Hkey|]. split; [exact Habsent|]. split; [exact Hitem|].
  split; [exact Hcol|]. split; [exact Hne|].
  destruct (validate_false_iff_messages parse_csv open_w_error config
              world_only_c table_only_c) as (_ & _ & _ & Hboth);
    [vm_compute; reflexivity | reflexivity |].
  destruct (Hboth "a" "c" "object" "int64" Hkey Habsent Hitem Hcol Hne)
    as (missing & errors & _ & _ & Hmiss & Herr & Hret & _ & Hfile).
  exists missing, errors. split_and!; assumption.
Defined.

Lemma validate_writes_status_full :
  (load (unzip_data_dir config) world_full).1 = Ok table_full ∧
  open_w_error (STATUS_FILE config) = None ∧
  ∃ (valid : bool) (messages : list string),
    (validate config world_full).1 = Ok valid ∧
    messages = report_messages table_full (all_schema config) ∧
    files (validate config world_full).2 =
      <[STATUS_FILE config :=
          ("Validation status: " +:+ Py.str_bool valid +:+ Py.LF)
            +:+ Py.join Py.LF messages]> (files world_full) ∧
    (valid = true →
     files (validate config world_full).2 !! STATUS_FILE config
       = Some ("Validation status: True" +:+ Py.LF)).
Proof.
  split; [vm_compute; reflexivity|]. split; [reflexivity|].
  apply (validate_writes_status parse_csv open_w_error config world_full
           table_full); vm_compute; reflexivity.
Defined.

Lemma validate_aborts_on_load_error_no_data :
  (load (unzip_data_dir config) world_no_data).1
    = Raise (FileNotFoundError "artifacts/data.csv") ∧
  (validate config world_no_data).1
    = Raise (FileNotFoundError "artifacts/data.csv") ∧
  files (validate config world_no_data).2 = files world_no_data ∧
  files (validate config world_no_data).2 !! STATUS_FILE config
    = files world_no_data !! STATUS_FILE config.
Proof.
  split; [vm_compute; reflexivity|].
  apply (validate_aborts_on_load_error parse_csv open_w_error config
           world_no_data (FileNotFoundError "artifacts/data.csv")).
  vm_compute; reflexivity.
Defined.

Lemma validate_empty_schema_only_c :
  all_schema config_empty_schema = [] ∧
  (load (unzip_data_dir config_empty_schema) world_only_c).1 = Ok table_only_c ∧
  open_w_error (STATUS_FILE config_empty_schema) = None ∧
  (validate config_empty_schema world_only_c).1 = Ok true ∧
  files (validate config_empty_schema world_only_c).2
    !! STATUS_FILE config_empty_schema
    = Some ("Validation status: True" +:+ Py.LF).
Proof.
  split; [reflexivity|]. split; [vm_compute; reflexivity|].
  split; [reflexivity|].
  apply (validate_empty_schema parse_csv open_w_error config_empty_schema
           world_only_c table_only_c); vm_compute; reflexivity.
Defined.

(** C5, as the specification words it, fails: with no data file the load
    raises [FileNotFoundError], and what the caller gets is not an exception
    of class [DataLoadError] around it. *)
Lemma validate_load_error_not_wrapped :
  (load (unzip_data_dir config) world_no_data).1
    = Raise (FileNotFoundError "artifacts/data.csv") ∧
  ¬ ∃ x, (validate config world_no_data).1 = Raise x ∧
         DataLoadError_wraps x (FileNotFoundError "artifacts/data.csv").
Proof.
  split; [vm_compute; reflexivity|].
  intros (x & Hx & Hcls & _).
  vm_compute in Hx. injection Hx as <-. vm_compute in Hcls. discriminate Hcls.
Qed.

Lemma validate_reraises_load_error_empty_data :
  (load (unzip_data_dir config) world_empty_data).1 = Raise EmptyDataError ∧
  (validate config world_empty_data).1 = Raise EmptyDataError ∧
  log (validate config world_empty_data).2
    = (log world_empty_data ++ [exception_log EmptyDataError])%list ∧
  (∀ x, (validate config world_empty_data).1 = Raise x →
        exc_class x = exc_class EmptyDataError ∧
        exc_msg x = exc_msg EmptyDataError ∧
        exc_chained x = exc_chained EmptyDataError).
Proof.
  split; [vm_compute; reflexivity|].
  apply (validate_reraises_load_error parse_csv open_w_error config
           world_empty_data EmptyDataError).
  vm_compute; reflexivity.
Defined.

Lemma validate_idempotent_only_c :
  let first := validate config world_only_c in
  let second := validate config first.2 in
  files first.2 !! unzip_data_dir config
    = files world_only_c !! unzip_data_dir config ∧
  second.1 = first.1 ∧
  files second.2 !! STATUS_FILE config = files first.2 !! STATUS_FILE config ∧
  files second.2 = files first.2.
Proof.
  split; [vm_compute; reflexivity|].
  apply (validate_idempotent parse_csv open_w_error config world_only_c).
  vm_compute; reflexivity.
Defined.

End ValidatorRuns.

(** ** Reading a configuration file *)

Section ReadYamlClaims.

Variable safe_load : string → Result YamlValue.
Variable box_from_iterable : list YamlValue → Result ConfigBox.

Local Abbreviation read := (read_yaml safe_load box_from_iterable).

(** C6. A file whose text loads to nothing (the empty document, [None])
    makes [read_yaml] fail with the empty-configuration error, a
    [ValueError] saying "yaml file is empty"; a file on which the parser
    raises makes it fail with the parser's own exception. *)
Theorem read_yaml_empty_or_parse_error path w text :
  files w !! path = Some text →
  (safe_load text = Ok YNone →
   ∃ x, (read path w).1 = Raise x ∧ EmptyConfigError x) ∧
  (∀ e, safe_load text = Raise e → isinstance e "BoxValueError" = false →
        (read path w).1 = Raise e).
Proof.
  intros Hfile.
  unfold read_yaml, try_except, mbind, M_bind, open_read, lift.
  rewrite Hfile. split.
  - intros ->. simpl. eexists. split; [reflexivity|]. by split.
  - intros e -> Hcls. simpl. by rewrite Hcls.
Qed.

End ReadYamlClaims.

Lemma read_yaml_empty_or_parse_error_files :
  (files Examples.world_yaml !! "empty.yaml" = Some "" ∧
   Examples.safe_load "" = Ok YNone ∧
   ∃ x, (read_yaml Examples.safe_load Examples.box_from_iterable
           "empty.yaml" Examples.world_yaml).1 = Raise x ∧
        EmptyConfigError x) ∧
  (files Examples.world_yaml !! "bad.yaml" = Some "a: b: c" ∧
   Examples.safe_load "a: b: c" = Raise Examples.ScannerError ∧
   isinstance Examples.ScannerError "BoxValueError" = false ∧
   (read_yaml Examples.safe_load Examples.box_from_iterable
      "bad.yaml" Examples.world_yaml).1 = Raise Examples.ScannerError).
Proof.
  split.
  - split; [vm_compute; reflexivity|]. split; [reflexivity|].
    apply (read_yaml_empty_or_parse_error Examples.safe_load
             Examples.box_from_iterable "empty.yaml" Examples.world_yaml "");
      vm_compute; reflexivity.
  - split; [vm_compute; reflexivity|]. split; [reflexivity|].
    split; [reflexivity|].
    apply (read_yaml_empty_or_parse_error Examples.safe_load
             Examples.box_from_iterable "bad.yaml" Examples.world_yaml "a: b: c");
      vm_compute; reflexivity.
Defined.

(** ** The size of a file in KB *)

Lemma div_half_even_nearest (a : Z) :
  (Z.abs (1024 * Float.div_half_even a 1024 - a) <= 512)%Z.
Proof.
  unfold Float.div_half_even.
  pose proof (Z.div_mod a 1024 ltac:(lia)).
  pose proof (Z.mod_pos_bound a 1024 ltac:(lia)).
  repeat case_match; lia.
Qed.

Lemma of_int_exact (n : Z) : (0 <= n < 2 ^ 53)%Z → Float.of_int n = n.
Proof.
  intros [Hlo Hhi]. unfold Float.of_int.
  destruct (Z.eq_dec n 0%Z) as [->|Hne]; [reflexivity|].
  assert (Z.log2 n < 53)%Z by (apply Z.log2_lt_pow2; lia).
  case_match; [reflexivity|lia].
Qed.

Lemma get_size_of_file (path : string) (w : World) (text : string) :
  files w !! path = Some text →
  get_size path w =
    (Ok ("~ " +:+ Py.str_int (Float.round_div_1024 (Z.of_nat (String.length text)))
           +:+ " KB"), w).
Proof.
  intros Hfile. unfold get_size, getsize, mbind, M_bind. by rewrite Hfile.
Qed.

(** C7. On a file of 2048 bytes [get_size] returns "~ 2 KB", on a file of
    1500 bytes "~ 1 KB"; on any file (of less than [2 ^ 53] bytes) the number
    shown is an integer nearest to the size divided by 1024. *)
Theorem get_size_nearest_kb (path : string) (w : World) (text : string) :
  files w !! path = Some text →
  (String.length text = 2048 → (get_size path w).1 = Ok "~ 2 KB") ∧
  (String.length text = 1500 → (get_size path w).1 = Ok "~ 1 KB") ∧
  ((Z.of_nat (String.length text) < 2 ^ 53)%Z →
   ∃ kb : Z,
     (get_size path w).1 = Ok ("~ " +:+ Py.str_int kb +:+ " KB") ∧
     (Z.abs (1024 * kb - Z.of_nat (String.length text)) <= 512)%Z).
Proof.
  intros Hfile. rewrite (get_size_of_file _ _ _ Hfile). simpl.
  split_and!.
  - by intros ->.
  - by intros ->.
  - intros Hlt. eexists. split; [reflexivity|].
    unfold Float.round_div_1024. rewrite of_int_exact by lia.
    apply div_half_even_nearest.
Qed.

Lemma get_size_nearest_kb_blob :
  (files (Examples.world_blob 2048) !! "model.bin" = Some (Examples.blob 2048) ∧
   String.length (Examples.blob 2048) = 2048 ∧
   (get_size "model.bin" (Examples.world_blob 2048)).1 = Ok "~ 2 KB") ∧
  (files (Examples.world_blob 1500) !! "model.bin" = Some (Examples.blob 1500) ∧
   String.length (Examples.blob 1500) = 1500 ∧
   (get_size "model.bin" (Examples.world_blob 1500)).1 = Ok "~ 1 KB").
Proof.
  split.
  - split; [vm_compute; reflexivity|]. split; [vm_compute; reflexivity|].
    apply (get_size_nearest_kb "model.bin" (Examples.world_blob 2048)
             (Examples.blob 2048)); vm_compute; reflexivity.
  - split; [vm_compute; reflexivity|]. split; [vm_compute; reflexivity|].
    apply (get_size_nearest_kb "model.bin" (Examples.world_blob 1500)
             (Examples.blob 1500)); vm_compute; reflexivity.
Defined.

Lemma div_half_even_tie (k : Z) :
  Float.div_half_even (1024 * k + 512) 1024 = if Z.even k then k else (k + 1)%Z.
Proof.
  unfold Float.div_half_even.
  assert (((1024 * k + 512) / 1024)%Z = k) as ->
    by (symmetry; apply (Z.div_unique _ _ k 512); lia).
  assert (((1024 * k + 512) mod 1024)%Z = 512%Z) as ->
    by (symmetry; apply (Z.mod_unique _ _ k 512); lia).
  reflexivity.
Qed.

(** C10. [get_size] rounds a half to the even neighbour: 2560 bytes (2.5 KB)
    give "~ 2 KB" and 3584 bytes (3.5 KB) give "~ 4 KB"; a size of [k] KB and
    a half gives [k] when [k] is even and [k + 1] when it is odd. *)
Theorem get_size_half_to_even (path : string) (w : World) (text : string) :
  files w !! path = Some text →
  (String.length text = 2560 → (get_size path w).1 = Ok "~ 2 KB") ∧
  (String.length text = 3584 → (get_size path w).1 = Ok "~ 4 KB") ∧
  (∀ k : Z,
     Z.of_nat (String.length text) = (1024 * k + 512)%Z →
     (Z.of_nat (String.length text) < 2 ^ 53)%Z →
     (get_size path w).1 =
       Ok ("~ " +:+ Py.str_int (if Z.even k then k else (k + 1)%Z) +:+ " KB")).
Proof.
  intros Hfile. rewrite (get_size_of_file _ _ _ Hfile). simpl.
  split_and!.
  - by intros ->.
  - by intros ->.
  - intros k Hk Hlt. unfold Float.round_div_1024.
    rewrite of_int_exact by lia. by rewrite Hk, div_half_even_tie.
Qed.

Lemma get_size_half_to_even_blob :
  (files (Examples.world_blob 2560) !! "model.bin" = Some (Examples.blob 2560) ∧
   String.length (Examples.blob 2560) = 2560 ∧
   (get_size "model.bin" (Examples.world_blob 2560)).1 = Ok "~ 2 KB") ∧
  (files (Examples.world_blob 3584) !! "model.bin" = Some (Examples.blob 3584) ∧
   String.length (Examples.blob 3584) = 3584 ∧
   (get_size "model.bin" (Examples.world_blob 3584)).1 = Ok "~ 4 KB").
Proof.
  split.
  - split; [vm_compute; reflexivity|]. split; [vm_compute; reflexivity|].
    apply (get_size_half_to_even "model.bin" (Examples.world_blob 2560)
             (Examples.blob 2560)); vm_compute; reflexivity.
  - split; [vm_compute; reflexivity|]. split; [vm_compute; reflexivity|].
    apply (get_size_half_to_even "model.bin" (Examples.world_blob 3584)
             (Examples.blob 3584)); vm_compute; reflexivity.
Defined.

(** * Further properties of the code *)

(** ** The two checks *)

Lemma missing_columns_app (data : DataFrame) (l1 l2 : list string) :
  missing_columns data (l1 ++ l2)
  = (missing_columns data l1 ++ missing_columns data l2)%list.
Proof. unfold missing_columns. apply filter_app. Qed.

Lemma dtype_errors_app (data : DataFrame) (s1 s2 : list (string * string)) :
  dtype_errors data (s1 ++ s2)
  = (dtype_errors data s1 ++ dtype_errors data s2)%list.
Proof.
  induction s1 as [|[col ty] s1 IH]; [done|]. simpl.
  destruct (dtypes data !! col) as [dt|]; [|done].
  destruct (negb (String.eqb dt ty)); [|done]. simpl. by rewrite IH.
Qed.

Lemma dtype_errors_length (data : DataFrame) (schema : list (string * string)) :
  (length (missing_columns data schema.*1) + length (dtype_errors data schema)
   ≤ length schema)%nat.
Proof.
  unfold missing_columns.
  induction schema as [|[col ty] schema IH]; [done|]. simpl.
  unfold fmap in IH. rewrite filter_cons. unfold columns at 1.
  destruct (decide (col ∉ dom (dtypes data))) as [Hout|Hin].
  - apply not_elem_of_dom in Hout. rewrite Hout. simpl. lia.
  - destruct (dtypes data !! col) as [dt|]; [|lia].
    destruct (negb (String.eqb dt ty)); simpl; lia.
Qed.

Lemma missing_columns_insert (m : gmap string string) (col dt : string)
    (cols : list string) :
  col ∉ cols →
  missing_columns {| dtypes := <[col := dt]> m |} cols
  = missing_columns {| dtypes := m |} cols.
Proof.
  unfold missing_columns, columns. simpl.
  induction cols as [|c cols IH]; [done|]. intros Hnot.
  apply not_elem_of_cons in Hnot as [Hne Hnot].
  rewrite !filter_cons, IH by done.
  apply decide_ext. by rewrite !not_elem_of_dom, lookup_insert_ne.
Qed.

Lemma dtype_errors_insert (m : gmap string string) (col dt : string)
    (schema : list (string * string)) :
  col ∉ schema.*1 →
  dtype_errors {| dtypes := <[col := dt]> m |} schema
  = dtype_errors {| dtypes := m |} schema.
Proof.
  induction schema as [|[c ty] schema IH]; [done|]. simpl. intros Hnot.
  apply not_elem_of_cons in Hnot as [Hne Hnot].
  rewrite lookup_insert_ne by done. by rewrite IH.
Qed.

(** ** No message spans two lines *)

Lemma contains_app (c : ascii) (s1 s2 : string) :
  Py.contains c (s1 +:+ s2) = Py.contains c s1 || Py.contains c s2.
Proof.
  induction s1 as [|a s1 IH]; [done|]. simpl. by rewrite IH, orb_assoc.
Qed.

Lemma repr_char_one_line (q c : ascii) :
  q = Py.quote1 ∨ q = Py.quote2 →
  Py.contains "010"%char (Py.repr_char q c) = false.
Proof.
  intros [-> | ->];
    destruct c as [[] [] [] [] [] [] [] []]; vm_compute; reflexivity.
Qed.

Lemma repr_body_one_line (q : ascii) (s : string) :
  q = Py.quote1 ∨ q = Py.quote2 →
  Py.contains "010"%char (Py.repr_body q s) = false.
Proof.
  intros Hq. induction s as [|c s IH]; [done|]. simpl.
  by rewrite contains_app, repr_char_one_line, IH.
Qed.

Lemma repr_str_one_line (s : string) :
  Py.contains "010"%char (Py.repr_str s) = false.
Proof.
  unfold Py.repr_str.
  set (q := if Py.contains Py.quote1 s && negb (Py.contains Py.quote2 s)
            then Py.quote2 else Py.quote1).
  assert (q = Py.quote1 ∨ q = Py.quote2) as Hq
    by (subst q; case_match; auto).
  pose proof (repr_body_one_line q s Hq) as Hbody.
  change (String q (Py.repr_body q s)) with (String q "" +:+ Py.repr_body q s).
  rewrite !contains_app, Hbody.
  destruct Hq as [-> | ->]; reflexivity.
Qed.

Lemma join_one_line (c : ascii) (sep : string) (l : list string) :
  Py.contains c sep = false →
  (∀ x, x ∈ l → Py.contains c x = false) →
  Py.contains c (Py.join sep l) = false.
Proof.
  intros Hsep. induction l as [|x l IH]; [done|]. intros Hall.
  assert (Py.contains c x = false) as Hx by (apply Hall; by left).
  destruct l as [|y l]; [done|].
  change (Py.join sep (x :: y :: l)) with (x +:+ sep +:+ Py.join sep (y :: l)).
  rewrite !contains_app, Hx, Hsep, IH; [done|].
  intros z Hz. apply Hall. by right.
Qed.

Lemma repr_list_one_line (l : list string) :
  Py.contains "010"%char (Py.repr_list l) = false.
Proof.
  unfold Py.repr_list. rewrite !contains_app, join_one_line; [done|done|].
  intros x Hx. apply list_elem_of_fmap in Hx as (s & -> & _).
  apply repr_str_one_line.
Qed.

Lemma report_messages_one_line (data : DataFrame)
    (schema : list (string * string)) (m : string) :
  m ∈ report_messages data schema → Py.contains "010"%char m = false.
Proof.
  unfold report_messages, missing_message, dtype_message. intros Hm.
  apply elem_of_app in Hm as [Hm|Hm].
  - destruct (missing_columns data schema.*1); [by apply elem_of_nil in Hm|].
    apply list_elem_of_singleton in Hm as ->.
    by rewrite contains_app, repr_list_one_line.
  - destruct (dtype_errors data schema); [by apply elem_of_nil in Hm|].
    apply list_elem_of_singleton in Hm as ->.
    by rewrite contains_app, repr_list_one_line.
Qed.

Lemma report_messages_length (data : DataFrame) (schema : list (string * string)) :
  (length (report_messages data schema) ≤ 2)%nat.
Proof.
  unfold report_messages, missing_message, dtype_message.
  destruct (missing_columns data schema.*1), (dtype_errors data schema);
    simpl; lia.
Qed.

(** ** The validator: failures, files, log and report *)

Section ValidatorExtras.

Variable parse_csv : string → Result DataFrame.
Variable open_w_error : string → option PyExc.

Local Abbreviation load := (read_csv parse_csv).
Local Abbreviation validate := (validate_all_columns parse_csv open_w_error).

(** X1. When the table loads but the status file cannot be opened, the call
    raises the exception of [open] itself and changes no file; the findings
    have been logged all the same, and the last log record is that of the
    exception. *)
Theorem validate_status_unwritable config w data e :
  (load (unzip_data_dir config) w).1 = Ok data →
  open_w_error (STATUS_FILE config) = Some e →
  (validate config w).1 = Raise e ∧
  files (validate config w).2 = files w ∧
  (∀ m, m ∈ report_messages data (all_schema config) →
        mkLog ERROR m None ∈ log (validate config w).2) ∧
  last (log (validate config w).2) = Some (exception_log e).
Proof.
  intros Hload Hopen.
  rewrite (validate_write_raises _ _ _ _ _ _ Hload Hopen). simpl.
  split_and!; try done.
  - intros m Hm. apply elem_of_app. right. apply elem_of_cons. right.
    apply elem_of_app. left. by apply (list_elem_of_fmap_2 (λ m, mkLog ERROR m None)).
  - by rewrite app_comm_cons, app_assoc, last_snoc.
Qed.

(** X2. Whatever happens, a call changes no file other than the status
    file and the log file: every other path holds what it held, and the log is
    only appended to. *)
Theorem validate_touches_status_only config w path :
  path ≠ STATUS_FILE config →
  path ≠ log_filepath →
  files (validate config w).2 !! path = files w !! path ∧
  ∃ new : list LogRecord, log (validate config w).2 = (log w ++ new)%list.
Proof.
  intros Hne _.
  destruct (load (unzip_data_dir config) w).1 as [data|e] eqn:Hload.
  - destruct (open_w_error (STATUS_FILE config)) as [e|] eqn:Hopen.
    + rewrite (validate_write_raises _ _ _ _ _ _ Hload Hopen).
      split; [done|]. by eexists.
    + rewrite (validate_reports _ _ _ _ _ Hload Hopen). cbn [fst snd files log].
      split; [by rewrite lookup_insert_ne|]. by eexists.
  - rewrite (validate_load_raises _ _ _ _ _ Hload).
    split; [done|]. by eexists.
Qed.

(** X3. Every call appends to the log, at least one record, and keeps what
    was logged before; the line "All validations passed successfully." is
    among the new records exactly when the call returns [True]. *)
Theorem validate_log config w :
  ∃ new : list LogRecord,
    log (validate config w).2 = (log w ++ new)%list ∧
    new ≠ [] ∧
    (mkLog INFO "All validations passed successfully." None ∈ new ↔
     (validate config w).1 = Ok true).
Proof.
  assert (∀ data tail,
            mkLog INFO "All validations passed successfully." None
              ∈ (report_log config data ++ tail)%list →
            mkLog INFO "All validations passed successfully." None ∈ tail)
    as Hreport.
  { intros data tail Hin. apply elem_of_app in Hin as [Hin|Hin]; [|done].
    unfold report_log in Hin. apply elem_of_cons in Hin as [Heq|Hin].
    - discriminate Heq.
    - apply list_elem_of_fmap in Hin as (m & Heq & _). discriminate Heq. }
  destruct (load (unzip_data_dir config) w).1 as [data|e] eqn:Hload.
  - destruct (open_w_error (STATUS_FILE config)) as [e|] eqn:Hopen.
    + rewrite (validate_write_raises _ _ _ _ _ _ Hload Hopen). cbn [fst snd log].
      eexists. split; [reflexivity|]. split; [by destruct (log w)|]. split; [|done].
      intros Hin. apply Hreport in Hin.
      apply list_elem_of_singleton in Hin. discriminate Hin.
    + rewrite (validate_reports _ _ _ _ _ Hload Hopen). cbn [fst snd log].
      eexists. split; [reflexivity|]. split; [done|].
      destruct (report_valid data (all_schema config)); cbn [success_log].
      * split; [done|]. intros _. apply elem_of_app. right. by left.
      * split; [|done]. intros Hin. apply Hreport in Hin.
        by apply elem_of_nil in Hin.
  - rewrite (validate_load_raises _ _ _ _ _ Hload). cbn [fst snd log].
    eexists. split; [reflexivity|]. split; [by destruct (log w)|]. split; [|done].
    intros Hin. apply list_elem_of_singleton in Hin. discriminate Hin.
Qed.

(** X4. The status file is a report of whole lines: after the status line
    come at most two messages, and no message holds a newline, whatever the
    column names and type names are (they are written as [repr] shows
    them). *)
Theorem validate_report_lines config w data :
  (load (unzip_data_dir config) w).1 = Ok data →
  open_w_error (STATUS_FILE config) = None →
  ∃ (valid : bool) (messages : list string),
    (validate config w).1 = Ok valid ∧
    files (validate config w).2 !! STATUS_FILE config =
      Some (("Validation status: " +:+ Py.str_bool valid +:+ Py.LF)
              +:+ Py.join Py.LF messages) ∧
    (length messages ≤ 2)%nat ∧
    (∀ m, m ∈ messages → Py.contains "010"%char m = false).
Proof.
  intros Hload Hopen.
  exists (report_valid data (all_schema config)),
         (report_messages data (all_schema config)).
  rewrite (validate_reports _ _ _ _ _ Hload Hopen). simpl.
  rewrite lookup_insert_eq, status_text_join.
  split_and!; try done.
  - apply report_messages_length.
  - apply report_messages_one_line.
Qed.

(** X5. A column of the table that the schema does not name is never
    reported: with or without it the call returns the same flag and writes
    the same status file. *)
Theorem validate_ignores_extra_columns config w1 w2 data col dtype :
  (load (unzip_data_dir config) w1).1 = Ok data →
  (load (unzip_data_dir config) w2).1
    = Ok {| dtypes := <[col := dtype]> (dtypes data) |} →
  col ∉ (all_schema config).*1 →
  open_w_error (STATUS_FILE config) = None →
  (validate config w2).1 = (validate config w1).1 ∧
  files (validate config w2).2 !! STATUS_FILE config
    = files (validate config w1).2 !! STATUS_FILE config.
Proof.
  intros Hload1 Hload2 Hcol Hopen.
  rewrite (validate_reports _ _ _ _ _ Hload1 Hopen).
  rewrite (validate_reports _ _ _ _ _ Hload2 Hopen). simpl.
  rewrite !lookup_insert_eq.
  unfold report_valid, report_messages, missing_message, dtype_message.
  destruct data as [m].
  by rewrite missing_columns_insert, dtype_errors_insert.
Qed.

(** X6. A schema item is reported at most once: its column is either
    missing or of another dtype, never both, so the two lists together are no
    longer than the schema; the missing columns come in the order of the
    schema. *)
Theorem validate_findings_bounded (data : DataFrame)
    (schema : list (string * string)) :
  (length (missing_columns data schema.*1) + length (dtype_errors data schema)
   ≤ length schema)%nat ∧
  missing_columns data schema.*1 `sublist_of` schema.*1 ∧
  (∀ col, col ∈ missing_columns data schema.*1 ↔
          col ∈ schema.*1 ∧ col ∉ columns data).
Proof.
  split_and!.
  - apply dtype_errors_length.
  - apply sublist_filter.
  - intros col. unfold missing_columns. rewrite list_elem_of_filter. tauto.
Qed.

(** X7. Checking against two schemas that share no key (so that the two
    put together are a dict again) is checking against each: the findings of
    the joined schema are those of the first followed by those of the second,
    and the call returns [True] for the joined schema exactly when it does for
    both. *)
Theorem validate_schema_app unzip status (s1 s2 : list (string * string)) w data :
  NoDup ((s1 ++ s2)%list).*1 →
  (load unzip w).1 = Ok data →
  open_w_error status = None →
  missing_columns data ((s1 ++ s2)%list).*1
    = (missing_columns data s1.*1 ++ missing_columns data s2.*1)%list ∧
  dtype_errors data (s1 ++ s2)%list
    = (dtype_errors data s1 ++ dtype_errors data s2)%list ∧
  ((validate (mkConfig unzip (s1 ++ s2)%list status) w).1 = Ok true ↔
   (validate (mkConfig unzip s1 status) w).1 = Ok true ∧
   (validate (mkConfig unzip s2 status) w).1 = Ok true).
Proof.
  intros _ Hload Hopen.
  rewrite fmap_app, missing_columns_app, dtype_errors_app.
  split; [done|]. split; [done|].
  rewrite (validate_reports _ _ (mkConfig unzip (s1 ++ s2)%list status) _ _ Hload Hopen).
  rewrite (validate_reports _ _ (mkConfig unzip s1 status) _ _ Hload Hopen).
  rewrite (validate_reports _ _ (mkConfig unzip s2 status) _ _ Hload Hopen).
  simpl. unfold report_valid.
  rewrite fmap_app, missing_columns_app, dtype_errors_app.
  destruct (missing_columns data s1.*1), (missing_columns data s2.*1),
    (dtype_errors data s1), (dtype_errors data s2); simpl;
    intuition congruence.
Qed.

End ValidatorExtras.

Module ValidatorExtrasRuns.
Import Examples.

Lemma validate_status_unwritable_only_c :
  let validate := validate_all_columns parse_csv Inputs.open_w_denied in
  let e := Inputs.PermissionError "artifacts/status.txt" in
  (read_csv parse_csv (unzip_data_dir config) world_only_c).1 = Ok table_only_c ∧
  Inputs.open_w_denied (STATUS_FILE config) = Some e ∧
  (validate config world_only_c).1 = Raise e ∧
  files (validate config world_only_c).2 = files world_only_c ∧
  (∀ m, m ∈ report_messages table_only_c (all_schema config) →
        mkLog ERROR m None ∈ log (validate config world_only_c).2) ∧
  last (log (validate config world_only_c).2) = Some (exception_log e).
Proof.
  split; [vm_compute; reflexivity|]. split; [reflexivity|].
  apply (validate_status_unwritable parse_csv Inputs.open_w_denied config
           world_only_c table_only_c); vm_compute; reflexivity.
Defined.

Lemma validate_touches_status_only_full :
  let validate := validate_all_columns parse_csv open_w_error in
  "artifacts/data.csv" ≠ STATUS_FILE config ∧
  "artifacts/data.csv" ≠ log_filepath ∧
  files (validate config world_full).2 !! "artifacts/data.csv"
    = files world_full !! "artifacts/data.csv" ∧
  ∃ new : list LogRecord,
    log (validate config world_full).2 = (log world_full ++ new)%list.
Proof.
  split; [discriminate|]. split; [discriminate|].
  apply (validate_touches_status_only parse_csv open_w_error config world_full
           "artifacts/data.csv"); discriminate.
Defined.

Lemma validate_report_lines_only_c :
  let validate := validate_all_columns parse_csv open_w_error in
  (read_csv parse_csv (unzip_data_dir config) world_only_c).1 = Ok table_only_c ∧
  open_w_error (STATUS_FILE config) = None ∧
  ∃ (valid : bool) (messages : list string),
    (validate config world_only_c).1 = Ok valid ∧
    files (validate config world_only_c).2 !! STATUS_FILE config =
      Some (("Validation status: " +:+ Py.str_bool valid +:+ Py.LF)
              +:+ Py.join Py.LF messages) ∧
    (length messages ≤ 2)%nat ∧
    (∀ m, m ∈ messages → Py.contains "010"%char m = false).
Proof.
  split; [vm_compute; reflexivity|]. split; [reflexivity|].
  apply (validate_report_lines parse_csv open_w_error config world_only_c
           table_only_c); vm_compute; reflexivity.
Defined.

Lemma validate_ignores_extra_columns_run :
  let validate := validate_all_columns Inputs.parse_csv open_w_error in
  (read_csv Inputs.parse_csv (unzip_data_dir config) world_only_c).1
    = Ok table_only_c ∧
  (read_csv Inputs.parse_csv (unzip_data_dir config) Inputs.world_c_and_extra).1
    = Ok {| dtypes := <["extra" := "float64"]> (dtypes table_only_c) |} ∧
  ("extra" ∉ (all_schema config).*1) ∧
  open_w_error (STATUS_FILE config) = None ∧
  (validate config Inputs.world_c_and_extra).1 = (validate config world_only_c).1 ∧
  files (validate config Inputs.world_c_and_extra).2 !! STATUS_FILE config
    = files (validate config world_only_c).2 !! STATUS_FILE config.
Proof.
  assert ("extra" ∉ (all_schema config).*1) as Hextra
    by (apply (bool_decide_unpack _); vm_compute; exact I).
  split; [vm_compute; reflexivity|]. split; [vm_compute; reflexivity|].
  split; [exact Hextra|]. split; [reflexivity|].
  apply (validate_ignores_extra_columns Inputs.parse_csv open_w_error config
           world_only_c Inputs.world_c_and_extra table_only_c "extra" "float64");
    [vm_compute; reflexivity | vm_compute; reflexivity | exact Hextra
    | reflexivity].
Defined.

Lemma validate_schema_app_only_c :
  let validate := validate_all_columns parse_csv open_w_error in
  let unzip := "artifacts/data.csv" in
  let status := "artifacts/status.txt" in
  let s1 := [("c", "int64")] in
  let s2 := [("a", "int64"); ("b", "float64")] in
  NoDup ((s1 ++ s2)%list).*1 ∧
  (read_csv parse_csv unzip world_only_c).1 = Ok table_only_c ∧
  open_w_error status = None ∧
  missing_columns table_only_c ((s1 ++ s2)%list).*1
    = (missing_columns table_only_c s1.*1
         ++ missing_columns table_only_c s2.*1)%list ∧
  dtype_errors table_only_c (s1 ++ s2)%list
    = (dtype_errors table_only_c s1 ++ dtype_errors table_only_c s2)%list ∧
  ((validate (mkConfig unzip (s1 ++ s2)%list status) world_only_c).1 = Ok true ↔
   (validate (mkConfig unzip s1 status) world_only_c).1 = Ok true ∧
   (validate (mkConfig unzip s2 status) world_only_c).1 = Ok true).
Proof.
  assert (NoDup (([("c", "int64")] ++ [("a", "int64"); ("b", "float64")])%list).*1)
    as Hkeys by (apply (bool_decide_unpack _); vm_compute; exact I).
  split; [exact Hkeys|]. split; [vm_compute; reflexivity|]. split; [reflexivity|].
  apply (validate_schema_app parse_csv open_w_error "artifacts/data.csv"
           "artifacts/status.txt" [("c", "int64")]
           [("a", "int64"); ("b", "float64")] world_only_c table_only_c);
    [exact Hkeys | vm_compute; reflexivity | reflexivity].
Defined.

End ValidatorExtrasRuns.

(** ** [read_yaml] beyond the empty file *)

Section ReadYamlExtras.

Variable safe_load : string → Result YamlValue.
Variable box_from_iterable : list YamlValue → Result ConfigBox.

Local Abbreviation read := (read_yaml safe_load box_from_iterable).

(** X8. A file whose text loads to a mapping is returned as a [ConfigBox]
    of that mapping's items; the call logs one line naming the path and
    changes no file. *)
Theorem read_yaml_mapping path w text items :
  files w !! path = Some text →
  safe_load text = Ok (YMap items) →
  read path w =
    (Ok (mkConfigBox items),
     {| files := files w; log := (log w ++ [yaml_loaded_log path])%list |}).
Proof.
  intros Hfile Hload.
  unfold read_yaml, try_except, mbind, M_bind, open_read, lift.
  by rewrite Hfile, Hload.
Qed.

(** X9. On every input [read_yaml] leaves the files as they are, logs at
    most its one line, and lets no [BoxValueError] reach the caller. *)
Theorem read_yaml_never path w :
  files (read path w).2 = files w ∧
  (log (read path w).2 = log w ∨
   log (read path w).2 = (log w ++ [yaml_loaded_log path])%list) ∧
  (∀ x, (read path w).1 = Raise x → isinstance x "BoxValueError" = false).
Proof.
  unfold read_yaml, try_except, mbind, M_bind, open_read, lift.
  destruct (files w !! path) as [text|]; simpl.
  - destruct (safe_load text) as [content|e]; simpl.
    + destruct content as [| | | | |l|]; simpl;
        try (split_and!; [done|by right|by intros x [= <-]]).
      destruct (box_from_iterable l) as [b|e]; simpl.
      * split_and!; [done|by right|done].
      * destruct (isinstance e "BoxValueError") eqn:He; simpl;
          (split_and!; [done|by right|by intros x [= <-]]).
    + destruct (isinstance e "BoxValueError") eqn:He; simpl;
        (split_and!; [done|by left|by intros x [= <-]]).
  - split_and!; [done|by left|by intros x [= <-]].
Qed.

(** X10. A read that fails before the document is loaded logs nothing: a
    missing file raises [FileNotFoundError] for that path, and an exception of
    the parser leaves the world as it was. *)
Theorem read_yaml_failed_read path w :
  (files w !! path = None →
   read path w = (Raise (FileNotFoundError path), w)) ∧
  (∀ text e, files w !! path = Some text → safe_load text = Raise e →
             (read path w).2 = w).
Proof.
  unfold read_yaml, try_except, mbind, M_bind, open_read, lift. split.
  - by intros ->.
  - intros text e -> ->. simpl. by destruct (isinstance e "BoxValueError").
Qed.

(** X11. A document that is a scalar (a string, a number, a boolean or
    nothing) is reported like an empty file: the call raises the [ValueError]
    "yaml file is empty", chained to the [BoxValueError] of the constructor,
    and it does so after logging that the file loaded successfully. *)
Theorem read_yaml_scalar_document path w text content :
  files w !! path = Some text →
  safe_load text = Ok content →
  (∀ items, content ≠ YMap items) →
  (∀ l, content ≠ YSeq l) →
  ∃ x b,
    (read path w).1 = Raise x ∧
    EmptyConfigError x ∧
    exc_chained x = Some b ∧
    isinstance b "BoxValueError" = true ∧
    (read path w).2 =
      {| files := files w; log := (log w ++ [yaml_loaded_log path])%list |}.
Proof.
  intros Hfile Hload Hmap Hseq.
  unfold read_yaml, try_except, mbind, M_bind, open_read, lift.
  rewrite Hfile, Hload.
  destruct content as [| | | | |l|items]; simpl;
    try (eexists _, _; split_and!; done).
  - by destruct (Hseq l).
  - by destruct (Hmap items).
Qed.

End ReadYamlExtras.

Lemma read_yaml_mapping_file :
  let w := {| files := {[ "params.yaml" := "key: value" ]}; log := [] |} in
  files w !! "params.yaml" = Some "key: value" ∧
  Examples.safe_load "key: value" = Ok (YMap [(YStr "key", YStr "value")]) ∧
  read_yaml Examples.safe_load Examples.box_from_iterable "params.yaml" w =
    (Ok (mkConfigBox [(YStr "key", YStr "value")]),
     {| files := files w;
        log := (log w ++ [yaml_loaded_log "params.yaml"])%list |}).
Proof.
  split; [vm_compute; reflexivity|]. split; [reflexivity|].
  apply (read_yaml_mapping Examples.safe_load Examples.box_from_iterable
           "params.yaml"
           {| files := {[ "params.yaml" := "key: value" ]}; log := [] |}
           "key: value"); vm_compute; reflexivity.
Defined.

Lemma read_yaml_failed_read_files :
  (files Examples.world_yaml !! "none.yaml" = None ∧
   read_yaml Examples.safe_load Examples.box_from_iterable "none.yaml"
     Examples.world_yaml
   = (Raise (FileNotFoundError "none.yaml"), Examples.world_yaml)) ∧
  (files Examples.world_yaml !! "bad.yaml" = Some "a: b: c" ∧
   Examples.safe_load "a: b: c" = Raise Examples.ScannerError ∧
   (read_yaml Examples.safe_load Examples.box_from_iterable "bad.yaml"
      Examples.world_yaml).2 = Examples.world_yaml).
Proof.
  split.
  - split; [vm_compute; reflexivity|].
    apply (read_yaml_failed_read Examples.safe_load Examples.box_from_iterable
             "none.yaml" Examples.world_yaml). vm_compute; reflexivity.
  - split; [vm_compute; reflexivity|]. split; [reflexivity|].
    apply (read_yaml_failed_read Examples.safe_load Examples.box_from_iterable
             "bad.yaml" Examples.world_yaml) with (text := "a: b: c")
             (e := Examples.ScannerError); vm_compute; reflexivity.
Defined.

Lemma read_yaml_scalar_document_empty :
  files Examples.world_yaml !! "empty.yaml" = Some "" ∧
  Examples.safe_load "" = Ok YNone ∧
  (∀ items, YNone ≠ YMap items) ∧
  (∀ l, YNone ≠ YSeq l) ∧
  ∃ x b,
    (read_yaml Examples.safe_load Examples.box_from_iterable "empty.yaml"
       Examples.world_yaml).1 = Raise x ∧
    EmptyConfigError x ∧
    exc_chained x = Some b ∧
    isinstance b "BoxValueError" = true ∧
    (read_yaml Examples.safe_load Examples.box_from_iterable "empty.yaml"
       Examples.world_yaml).2 =
      {| files := files Examples.world_yaml;
         log := (log Examples.world_yaml ++ [yaml_loaded_log "empty.yaml"])%list |}.
Proof.
  split; [vm_compute; reflexivity|]. split; [reflexivity|].
  split; [discriminate|]. split; [discriminate|].
  apply (read_yaml_scalar_document Examples.safe_load Examples.box_from_iterable
           "empty.yaml" Examples.world_yaml "" YNone);
    try discriminate; vm_compute; reflexivity.
Defined.

(** ** [get_size] on small, missing and growing files *)

Lemma div_half_even_mono (a b : Z) :
  (a <= b)%Z → (Float.div_half_even a 1024 <= Float.div_half_even b 1024)%Z.
Proof.
  intros Hab. unfold Float.div_half_even.
  pose proof (Z.div_mod a 1024 ltac:(lia)) as Ha.
  pose proof (Z.mod_pos_bound a 1024 ltac:(lia)) as Hra.
  pose proof (Z.div_mod b 1024 ltac:(lia)) as Hb.
  pose proof (Z.mod_pos_bound b 1024 ltac:(lia)) as Hrb.
  set (qa := (a / 1024)%Z) in *. set (ra := (a mod 1024)%Z) in *.
  set (qb := (b / 1024)%Z) in *. set (rb := (b mod 1024)%Z) in *.
  clearbody qa ra qb rb.
  destruct (Z.eq_dec qa qb) as [->|Hne];
    repeat match goal with
           | |- context [(?x <? ?y)%Z] => destruct (Z.ltb_spec x y)
           end;
    repeat case_match; lia.
Qed.

Lemma div_half_even_small (n : Z) :
  (0 <= n <= 512)%Z → Float.div_half_even n 1024 = 0%Z.
Proof.
  intros Hn. unfold Float.div_half_even.
  rewrite Z.div_small, Z.mod_small by lia.
  repeat match goal with
         | |- context [(?x <? ?y)%Z] => destruct (Z.ltb_spec x y)
         end; try reflexivity; lia.
Qed.

(** X13. Every file of at most 512 bytes, the empty file and the file of
    exactly half a KB included, is reported as "~ 0 KB". *)
Theorem get_size_small_file (path : string) (w : World) (text : string) :
  files w !! path = Some text →
  (String.length text ≤ 512)%nat →
  (get_size path w).1 = Ok "~ 0 KB".
Proof.
  intros Hfile Hlen. rewrite (get_size_of_file _ _ _ Hfile). simpl.
  unfold Float.round_div_1024.
  rewrite of_int_exact by lia. by rewrite div_half_even_small by lia.
Qed.

(** X14. The size shown never decreases when the file grows: for two files
    (of less than [2 ^ 53] bytes), the larger one is shown with a number of KB
    that is at least that of the smaller one, and no number is negative. *)
Theorem get_size_monotone (path1 path2 : string) (w : World)
    (text1 text2 : string) :
  files w !! path1 = Some text1 →
  files w !! path2 = Some text2 →
  (String.length text1 ≤ String.length text2)%nat →
  (Z.of_nat (String.length text2) < 2 ^ 53)%Z →
  ∃ kb1 kb2 : Z,
    (get_size path1 w).1 = Ok ("~ " +:+ Py.str_int kb1 +:+ " KB") ∧
    (get_size path2 w).1 = Ok ("~ " +:+ Py.str_int kb2 +:+ " KB") ∧
    (0 <= kb1 <= kb2)%Z.
Proof.
  intros Hfile1 Hfile2 Hlen Hbound.
  rewrite (get_size_of_file _ _ _ Hfile1), (get_size_of_file _ _ _ Hfile2).
  simpl. eexists _, _. split; [reflexivity|]. split; [reflexivity|].
  unfold Float.round_div_1024. rewrite !of_int_exact by lia. split.
  - rewrite <- (div_half_even_small 0) by lia. apply div_half_even_mono. lia.
  - apply div_half_even_mono. lia.
Qed.

Lemma get_size_small_file_blob :
  files (Examples.world_blob 512) !! "model.bin" = Some (Examples.blob 512) ∧
  (String.length (Examples.blob 512) ≤ 512)%nat ∧
  (get_size "model.bin" (Examples.world_blob 512)).1 = Ok "~ 0 KB".
Proof.
  assert (String.length (Examples.blob 512) ≤ 512)%nat as Hlen
    by (apply (bool_decide_unpack _); vm_compute; exact I).
  split; [vm_compute; reflexivity|]. split; [exact Hlen|].
  apply (get_size_small_file "model.bin" (Examples.world_blob 512)
           (Examples.blob 512)); [vm_compute; reflexivity | exact Hlen].
Defined.

Lemma get_size_monotone_blobs :
  let w := {| files := <["small.bin" := Examples.blob 600]>
                         {[ "large.bin" := Examples.blob 1600 ]};
              log := [] |} in
  files w !! "small.bin" = Some (Examples.blob 600) ∧
  files w !! "large.bin" = Some (Examples.blob 1600) ∧
  (String.length (Examples.blob 600) ≤ String.length (Examples.blob 1600))%nat ∧
  (Z.of_nat (String.length (Examples.blob 1600)) < 2 ^ 53)%Z ∧
  ∃ kb1 kb2 : Z,
    (get_size "small.bin" w).1 = Ok ("~ " +:+ Py.str_int kb1 +:+ " KB") ∧
    (get_size "large.bin" w).1 = Ok ("~ " +:+ Py.str_int kb2 +:+ " KB") ∧
    (0 <= kb1 <= kb2)%Z.
Proof.
  assert (String.length (Examples.blob 600)
          ≤ String.length (Examples.blob 1600))%nat as Hlen
    by (apply (bool_decide_unpack _); vm_compute; exact I).
  assert (Z.of_nat (String.length (Examples.blob 1600)) < 2 ^ 53)%Z as Hbound
    by (vm_compute; reflexivity).
  split; [vm_compute; reflexivity|]. split; [vm_compute; reflexivity|].
  split; [exact Hlen|]. split; [exact Hbound|].
  apply (get_size_monotone "small.bin" "large.bin"
           {| files := <["small.bin" := Examples.blob 600]>
                         {[ "large.bin" := Examples.blob 1600 ]};
              log := [] |}
           (Examples.blob 600) (Examples.blob 1600));
    [vm_compute; reflexivity | vm_compute; reflexivity | exact Hlen
    | exact Hbound].
Defined.

(** ** Saving and loading *)

Section PersistenceExtras.

Variable open_w_error : string → option PyExc.
Variable box_from_iterable : list YamlValue → Result ConfigBox.
Variable json_dump : list (YamlValue * YamlValue) → string * option PyExc.
Variable json_load : string → Result YamlValue.
Variable Obj : Type.
Variable joblib_dump : Obj → string * option PyExc.
Variable joblib_load : string → Result Obj.

Local Abbreviation save_json' := (save_json open_w_error json_dump).
Local Abbreviation load_json' := (load_json box_from_iterable json_load).
Local Abbreviation save_bin' := (save_bin open_w_error Obj joblib_dump).
Local Abbreviation load_bin' := (load_bin Obj joblib_load).

(** X15. What [save_json] saves, [load_json] loads: when the dictionary is
    serialised to a text that the JSON parser reads back as that dictionary,
    saving it at a path and loading the path returns a [ConfigBox] of its
    items, whatever the file held before; each of the two calls logs its one
    line. *)
Theorem save_json_load_json path data text w :
  open_w_error path = None →
  json_dump data = (text, None) →
  json_load text = Ok (YMap data) →
  let saved := save_json' path data w in
  saved.1 = Ok tt ∧
  files saved.2 = <[path := text]> (files w) ∧
  load_json' path saved.2 =
    (Ok (mkConfigBox data),
     {| files := <[path := text]> (files w);
        log := (log w ++ [json_saved_log path; json_loaded_log path])%list |}).
Proof.
  intros Hopen Hdump Hload.
  unfold save_json, load_json, write_with, write_text, open_read, lift,
    logger_info, emit, mbind, M_bind, mret, M_ret.
  rewrite Hopen, Hdump. simpl.
  rewrite lookup_insert_eq, Hload. simpl.
  by rewrite <- app_assoc.
Qed.

(** X16. A failed [save_json] logs nothing.  When the path cannot be opened
    the world is as it was; when the serialiser raises, the file has already
    been opened, so it holds what was written until then and its earlier
    content is gone. *)
Theorem save_json_failure path data w :
  (∀ e, open_w_error path = Some e → save_json' path data w = (Raise e, w)) ∧
  (∀ text e, open_w_error path = None → json_dump data = (text, Some e) →
     save_json' path data w =
       (Raise e, {| files := <[path := text]> (files w); log := log w |})).
Proof.
  unfold save_json, write_with, write_text, mbind, M_bind. split.
  - by intros e ->.
  - by intros text e -> ->.
Qed.

(** X17. [load_json] does not turn the constructor's error into another
    one: a document that is a scalar ([null], a number, a string) makes it
    raise the [BoxValueError] itself, after logging that the file was loaded;
    a missing file raises [FileNotFoundError] and logs nothing. *)
Theorem load_json_failure path w :
  (files w !! path = None →
   load_json' path w = (Raise (FileNotFoundError path), w)) ∧
  (∀ text content,
     files w !! path = Some text → json_load text = Ok content →
     (∀ items, content ≠ YMap items) → (∀ l, content ≠ YSeq l) →
     ∃ b, isinstance b "BoxValueError" = true ∧
          load_json' path w =
            (Raise b, {| files := files w;
                         log := (log w ++ [json_loaded_log path])%list |})).
Proof.
  unfold load_json, open_read, lift, mbind, M_bind. split.
  - by intros ->.
  - intros text content -> -> Hmap Hseq. simpl.
    destruct content as [| | | | |l|items]; simpl;
      try (eexists; split; [|reflexivity]; reflexivity).
    + by destruct (Hseq l).
    + by destruct (Hmap items).
Qed.

(** X18. As decorated, [save_bin] and [load_bin] never succeed.  The check
    of an argument annotated [Any] raises [TypeError] before [save_bin] opens
    the file: nothing is written, nothing logged.  [load_bin] runs its body,
    so a file that unpickles is loaded and the load is logged, and then the
    check of the returned value raises [TypeError]; no call returns an
    object, and no file changes. *)
Theorem save_bin_load_bin (data : Obj) path w :
  save_bin' data path w = (Raise isinstance_Any_error, w) ∧
  (∀ obj, (load_bin' path w).1 ≠ Ok obj) ∧
  files (load_bin' path w).2 = files w ∧
  (∀ bytes obj,
     files w !! path = Some bytes → joblib_load bytes = Ok obj →
     load_bin' path w =
       (Raise isinstance_Any_error,
        {| files := files w; log := (log w ++ [bin_loaded_log path])%list |})).
Proof.
  unfold save_bin, load_bin, ensure_Any, open_read, lift, mbind, M_bind.
  split_and!.
  - done.
  - intros obj. destruct (files w !! path) as [bytes|]; simpl; [|done].
    by destruct (joblib_load bytes).
  - destruct (files w !! path) as [bytes|]; simpl; [|done].
    by destruct (joblib_load bytes).
  - by intros bytes obj -> ->.
Qed.

End PersistenceExtras.

(** ** Creating directories *)

Section DirectoriesExtras.

Variable Dirs : Type.
Variable makedirs : string → gmap string string → Dirs → Result unit * Dirs.

(** X19. Creating a list of directories is creating its first part and then
    the rest: when the first part raises, the rest is not attempted and the
    exception is that of the first part. *)
Theorem create_directories_app (l1 l2 : list string) verbose d w :
  create_directories Dirs makedirs (l1 ++ l2)%list verbose d w =
    match create_directories Dirs makedirs l1 verbose d w with
    | (Ok _, d', w') => create_directories Dirs makedirs l2 verbose d' w'
    | (Raise e, d', w') => (Raise e, d', w')
    end.
Proof.
  revert d w. induction l1 as [|path l1 IH]; intros d w; [done|]. simpl.
  destruct (makedirs path (files w) d) as [[[]|e] d']; [|done].
  apply IH.
Qed.

(** X20. [create_directories] changes no file, and its log tells what it
    did.  The list splits into the directories made, each by a call of
    [os.makedirs] that returned, and the rest: the rest is empty and the call
    returns, or the rest starts with the directory on which [os.makedirs]
    raised, and the call raises that exception.  With [verbose] the new log
    lines are one "created directory at" line for each directory made, in
    order, and none for the one that failed or those after it; without,
    nothing is logged. *)
Theorem create_directories_log (paths : list string) verbose d w :
  let r := create_directories Dirs makedirs paths verbose d w in
  files r.2 = files w ∧
  ∃ (made rest : list string) (d1 : Dirs),
    paths = (made ++ rest)%list ∧
    makedirs_each Dirs makedirs made (files w) d = Some d1 ∧
    log r.2 = (log w ++ (if verbose : bool then created_log <$> made else []))%list ∧
    match rest with
    | [] => r.1 = (Ok tt, d1)
    | path :: _ =>
        ∃ e d', makedirs path (files w) d1 = (Raise e, d') ∧ r.1 = (Raise e, d')
    end.
Proof.
  revert d w. induction paths as [|path paths IH]; intros d w; simpl.
  - split; [done|]. exists [], [], d. split_and!; try done.
    destruct verbose; simpl; by rewrite app_nil_r.
  - destruct (makedirs path (files w) d) as [[[]|e] d'] eqn:Hmk; simpl.
    + destruct verbose.
      * destruct (IH d' (logger_info ("created directory at: " +:+ path) w).2)
          as (Hfiles & made & rest & d1 & -> & Heach & Hlog & Hrest).
        simpl in Hfiles, Heach, Hlog, Hrest.
        split; [done|]. exists (path :: made), rest, d1. split_and!.
        -- done.
        -- simpl. by rewrite Hmk.
        -- rewrite Hlog. simpl. by rewrite <- app_assoc.
        -- done.
      * destruct (IH d' w)
          as (Hfiles & made & rest & d1 & -> & Heach & Hlog & Hrest).
        simpl in Hfiles, Heach, Hlog, Hrest.
        split; [done|]. exists (path :: made), rest, d1. split_and!.
        -- done.
        -- simpl. by rewrite Hmk.
        -- done.
        -- done.
    + split; [done|]. exists [], (path :: paths), d. split_and!; try done.
      * destruct verbose; simpl; by rewrite app_nil_r.
      * by exists e, d'.
Qed.

End DirectoriesExtras.

Module PersistenceRuns.
Import Inputs.

Lemma save_json_load_json_metrics :
  let saved := save_json Examples.open_w_error json_dump "metrics.json" metrics
                 world_json in
  Examples.open_w_error "metrics.json" = None ∧
  json_dump metrics = (metrics_text, None) ∧
  json_load metrics_text = Ok (YMap metrics) ∧
  saved.1 = Ok tt ∧
  files saved.2 = <["metrics.json" := metrics_text]> (files world_json) ∧
  load_json Examples.box_from_iterable json_load "metrics.json" saved.2 =
    (Ok (mkConfigBox metrics),
     {| files := <["metrics.json" := metrics_text]> (files world_json);
        log := (log world_json ++ [json_saved_log "metrics.json";
                                   json_loaded_log "metrics.json"])%list |}).
Proof.
  split; [reflexivity|]. split; [reflexivity|].
  split; [vm_compute; reflexivity|].
  apply (save_json_load_json Examples.open_w_error Examples.box_from_iterable
           json_dump json_load "metrics.json" metrics metrics_text world_json);
    vm_compute; reflexivity.
Defined.

Lemma save_json_failure_runs :
  let unserialisable := [(YStr "tags", YSeq [])] in
  (open_w_denied "artifacts/status.txt"
     = Some (PermissionError "artifacts/status.txt") ∧
   save_json open_w_denied json_dump "artifacts/status.txt" metrics world_json
     = (Raise (PermissionError "artifacts/status.txt"), world_json)) ∧
  (Examples.open_w_error "metrics.json" = None ∧
   json_dump unserialisable = ("{", Some NotSerializable) ∧
   save_json Examples.open_w_error json_dump "metrics.json" unserialisable
     world_json
   = (Raise NotSerializable,
      {| files := <["metrics.json" := "{"]> (files world_json);
         log := log world_json |})).
Proof.
  split.
  - split; [reflexivity|].
    apply (save_json_failure open_w_denied json_dump "artifacts/status.txt"
             metrics world_json). reflexivity.
  - split; [reflexivity|]. split; [reflexivity|].
    apply (save_json_failure Examples.open_w_error json_dump "metrics.json"
             [(YStr "tags", YSeq [])] world_json); reflexivity.
Defined.

Lemma load_json_failure_runs :
  (files world_json !! "none.json" = None ∧
   load_json Examples.box_from_iterable json_load "none.json" world_json
     = (Raise (FileNotFoundError "none.json"), world_json)) ∧
  (files world_json !! "null.json" = Some "null" ∧
   json_load "null" = Ok YNone ∧
   ∃ b, isinstance b "BoxValueError" = true ∧
        load_json Examples.box_from_iterable json_load "null.json" world_json =
          (Raise b, {| files := files world_json;
                       log := (log world_json
                                 ++ [json_loaded_log "null.json"])%list |})).
Proof.
  split.
  - split; [vm_compute; reflexivity|].
    apply (load_json_failure Examples.box_from_iterable json_load "none.json"
             world_json). vm_compute; reflexivity.
  - split; [vm_compute; reflexivity|]. split; [vm_compute; reflexivity|].
    apply (load_json_failure Examples.box_from_iterable json_load "null.json"
             world_json) with (text := "null") (content := YNone);
      try discriminate; vm_compute; reflexivity.
Defined.

(** A pickle that loads: the load is logged, then the call raises. *)
Example load_bin_seven :
  let w := {| files := {[ "model.joblib" := "7" ]}; log := [] |} in
  save_bin Examples.open_w_error nat joblib_dump 7 "model.joblib" w
    = (Raise isinstance_Any_error, w) ∧
  load_bin nat joblib_load "model.joblib" w
    = (Raise isinstance_Any_error,
       {| files := files w; log := [bin_loaded_log "model.joblib"] |}).
Proof. split; reflexivity. Qed.

(** Two directories, the second of which is a file: the first is made and
    logged, the second raises. *)
Example create_directories_stops :
  let w := {| files := {[ "artifacts/data.csv" := "x" ]}; log := [] |} in
  create_directories (gset string) makedirs ["artifacts"; "artifacts/data.csv"; "logs"]
    true ∅ w
  = (Raise (Exc "FileExistsError" "[Errno 17] File exists" None),
     {[ "artifacts" ]} ∪ ∅,
     {| files := files w; log := [created_log "artifacts"] |}).
Proof. reflexivity. Qed.

End PersistenceRuns.

(** ** The order of the schema *)

Lemma report_valid_permutation (data : DataFrame)
    (s1 s2 : list (string * string)) :
  s1 ≡ₚ s2 → report_valid data s1 = report_valid data s2.
Proof.
  intros Hperm.
  assert (report_valid data s1 = true ↔ report_valid data s2 = true) as Hiff.
  { rewrite !report_valid_true, !missing_columns_nil, !dtype_errors_nil.
    split; intros [Hcols Htypes]; split.
    - intros col Hin. apply Hcols. by rewrite Hperm.
    - intros col ty dt Hin. apply Htypes. by rewrite Hperm.
    - intros col Hin. apply Hcols. by rewrite <- Hperm.
    - intros col ty dt Hin. apply Htypes. by rewrite <- Hperm. }
  destruct (report_valid data s1), (report_valid data s2); try done.
  - symmetry. by apply Hiff.
  - by apply Hiff.
Qed.

(** X21. The flag does not depend on the order in which the schema lists
    its columns: two schemas with the same items in another order give the
    same result on the same data file. *)
Theorem validate_schema_order
    (parse_csv : string → Result DataFrame)
    (open_w_error : string → option PyExc)
    (unzip status : string) (s1 s2 : list (string * string)) (w : World) :
  s1 ≡ₚ s2 →
  (validate_all_columns parse_csv open_w_error (mkConfig unzip s1 status) w).1
  = (validate_all_columns parse_csv open_w_error (mkConfig unzip s2 status) w).1.
Proof.
  intros Hperm.
  destruct (read_csv parse_csv unzip w).1 as [data|e] eqn:Hload.
  - destruct (open_w_error status) as [e|] eqn:Hopen.
    + rewrite (validate_write_raises _ _ (mkConfig unzip s1 status) _ _ _ Hload Hopen).
      by rewrite (validate_write_raises _ _ (mkConfig unzip s2 status) _ _ _ Hload Hopen).
    + rewrite (validate_reports _ _ (mkConfig unzip s1 status) _ _ Hload Hopen).
      rewrite (validate_reports _ _ (mkConfig unzip s2 status) _ _ Hload Hopen).
      simpl. by rewrite (report_valid_permutation data s1 s2 Hperm).
  - rewrite (validate_load_raises _ _ (mkConfig unzip s1 status) _ _ Hload).
    by rewrite (validate_load_raises _ _ (mkConfig unzip s2 status) _ _ Hload).
Qed.

Lemma validate_schema_order_only_c :
  let s1 := [("c", "int64"); ("a", "int64")] in
  let s2 := [("a", "int64"); ("c", "int64")] in
  s1 ≡ₚ s2 ∧
  (validate_all_columns Examples.parse_csv Examples.open_w_error
     (mkConfig "artifacts/data.csv" s1 "artifacts/status.txt")
     Examples.world_only_c).1
  = (validate_all_columns Examples.parse_csv Examples.open_w_error
       (mkConfig "artifacts/data.csv" s2 "artifacts/status.txt")
       Examples.world_only_c).1.
Proof.
  split; [apply Permutation_swap|].
  apply (validate_schema_order Examples.parse_csv Examples.open_w_error
           "artifacts/data.csv" "artifacts/status.txt"
           [("c", "int64"); ("a", "int64")] [("a", "int64"); ("c", "int64")]
           Examples.world_only_c).
  apply Permutation_swap.
Defined.
